(** * Architectural document analysis server: extraction, cache and fallback

    A shallow embedding of [server/src/app.ts]: the text extractors that turn
    the free text of the vision model into an [AnalysisResult], the in-memory
    [analysisCache], the fallback generators and the two request handlers
    ([/api/upload], [/api/chat]).

    Strings.  A JavaScript string is a sequence of UTF-16 code units.  The
    embedding uses [string], read as a sequence of code units below 256
    (Basic Latin and Latin-1 Supplement).  On that range every primitive below
    ([toLowerCase], [trim], [split], [includes], the character classes of the
    regular expressions) is the JavaScript one, code unit for code unit.

    Numbers.  The only number the program builds is the result of
    [parseInt] on a run of decimal digits: a double that is a non-negative
    integer, or Infinity.  [number] holds such a value; [toNumber] rounds an
    integer to the nearest double, ties to even, and [numberToString] prints
    a number as a template literal does, with the fewest digits that read
    back as the same double and in exponent form from 10^21 on.

    Effects.  The calls to the model server, the file system and the clock
    are the fields of a [World]; a call that throws is [None].  The cache is
    passed to a handler and returned by it. *)

From Stdlib Require Import Ascii String List NArith Bool Lia DecimalString DecimalPos DecimalN.
From stdpp Require Import base option list gmap strings.

Local Open Scope N_scope.

(** ** JavaScript string primitives *)

Module JS.

Definition code (c : ascii) : N := N_of_ascii c.

Definition in_range (lo hi : N) (c : ascii) : bool :=
  (lo <=? code c) && (code c <=? hi).

(** WhiteSpace and LineTerminator code units: TAB, LF, VT, FF, CR, SP, NBSP.
    This is the set [trim] strips and the class [\s] matches. *)
Definition isWhiteSpace (c : ascii) : bool :=
  in_range 9 13 c || (code c =? 32) || (code c =? 160).

Definition isDigit (c : ascii) : bool := in_range 48 57 c.

(** Letters with a lower-case partner: A-Z and the Latin-1 capitals
    (U+00C0..U+00DE without the multiplication sign U+00D7). *)
Definition isUpper (c : ascii) : bool :=
  in_range 65 90 c || (in_range 192 222 c && negb (code c =? 215)).

(** Letters whose upper-case partner is a single code unit below 256: a-z and
    U+00E0..U+00FE without the division sign U+00F7.  (U+00B5, U+00DF and
    U+00FF upper-case outside this range; the program only upper-cases the
    first letter of its own material keywords.) *)
Definition isLower (c : ascii) : bool :=
  in_range 97 122 c || (in_range 224 254 c && negb (code c =? 247)).

Definition lower (c : ascii) : ascii :=
  if isUpper c then ascii_of_N (code c + 32) else c.

Definition upper (c : ascii) : ascii :=
  if isLower c then ascii_of_N (code c - 32) else c.

(** [String.prototype.toLowerCase] *)
Fixpoint toLowerCase (s : string) : string :=
  match s with
  | EmptyString => EmptyString
  | String c s' => String (lower c) (toLowerCase s')
  end.

(** [String.prototype.toUpperCase] *)
Fixpoint toUpperCase (s : string) : string :=
  match s with
  | EmptyString => EmptyString
  | String c s' => String (upper c) (toUpperCase s')
  end.

(** [String.prototype.startsWith] *)
Fixpoint startsWith (s p : string) : bool :=
  match p, s with
  | EmptyString, _ => true
  | String _ _, EmptyString => false
  | String a p', String b s' => Ascii.eqb a b && startsWith s' p'
  end.

(** [String.prototype.includes] *)
Fixpoint includes (s sub : string) : bool :=
  startsWith s sub ||
  match s with
  | EmptyString => false
  | String _ s' => includes s' sub
  end.

(** [String.prototype.split] with a one-character separator: the pieces
    between the separators, at least one piece. *)
Fixpoint split (s : string) (sep : ascii) : list string :=
  match s with
  | EmptyString => [EmptyString]
  | String c s' =>
      if Ascii.eqb c sep then EmptyString :: split s' sep
      else match split s' sep with
           | piece :: rest => String c piece :: rest
           | [] => [String c EmptyString]
           end
  end.

Fixpoint trimStart (s : string) : string :=
  match s with
  | EmptyString => EmptyString
  | String c s' => if isWhiteSpace c then trimStart s' else s
  end.

Fixpoint trimEnd (s : string) : string :=
  match s with
  | EmptyString => EmptyString
  | String c s' =>
      match trimEnd s' with
      | EmptyString => if isWhiteSpace c then EmptyString else String c EmptyString
      | t => String c t
      end
  end.

(** [String.prototype.trim] *)
Definition trim (s : string) : string := trimEnd (trimStart s).

(** [String.prototype.charAt] and [String.prototype.slice] with one index *)
Definition charAt (s : string) (i : nat) : string :=
  match String.get i s with
  | Some c => String c EmptyString
  | None => EmptyString
  end.

Fixpoint slice (s : string) (i : nat) : string :=
  match i, s with
  | O, _ => s
  | S _, EmptyString => EmptyString
  | S i', String _ s' => slice s' i'
  end.

(** [Array.prototype.join] *)
Fixpoint join (l : list string) (sep : string) : string :=
  match l with
  | [] => ""
  | [x] => x
  | x :: rest => x +:+ sep +:+ join rest sep
  end.

(** [Array.prototype.slice(0, n)] *)
Definition slice0 {A} (l : list A) (n : nat) : list A := firstn n l.

(** [parseInt] on a run of decimal digits. *)
Definition digitValue (c : ascii) : N := code c - 48.

Fixpoint parseDigits (acc : N) (s : string) : N :=
  match s with
  | EmptyString => acc
  | String c s' => if isDigit c then parseDigits (10 * acc + digitValue c) s' else acc
  end.

(** A JavaScript number that is a non-negative integer, given by its exact
    value, or positive infinity. *)
Inductive number : Type :=
| Num (n : N)
| Infinity.

Definition two53 : N := 9007199254740992.

(** The number value of an integer: the integer itself below 2^53, else the
    nearest multiple of the power of two that leaves 53 bits, ties to the
    even one; Infinity when that reaches 2^1024. *)
Definition toNumber (n : N) : number :=
  if n <? two53 then Num n
  else
    let e := N.log2 n - 52 in
    let q := N.shiftr n e in
    let r := n - N.shiftl q e in
    let half := N.shiftl 1 (e - 1) in
    let q' := if (half <? r) || ((r =? half) && N.odd q) then q + 1 else q in
    let v := N.shiftl q' e in
    if 2 ^ 1024 <=? v then Infinity else Num v.

(** [parseInt] on a run of decimal digits: the number value of the integer
    the digits denote. *)
Definition parseInt (s : string) : number := toNumber (parseDigits 0 s).

(** All decimal digits of an integer. *)
Definition decimal (n : N) : string := NilEmpty.string_of_uint (N.to_uint n).

Fixpoint zeros (k : nat) : string :=
  match k with
  | O => EmptyString
  | S k' => String "0" (zeros k')
  end.

(** [s * 10^p] reads back as the double [x]. *)
Definition readsBack (x s : N) (p : nat) : bool :=
  match toNumber (s * 10 ^ N.of_nat p) with
  | Num v => v =? x
  | Infinity => false
  end.

(** The digits [s] and the exponent [p] of a decimal with [k] digits that
    reads back as [x], if there is one: the nearer of the two decimals
    around [x], the even one when they are as near. *)
Definition candidate (x : N) (k : nat) : option (N * nat) :=
  let p := (String.length (decimal x) - k)%nat in
  let lo := x / 10 ^ N.of_nat p in
  let hi := lo + 1 in
  let dlo := x - lo * 10 ^ N.of_nat p in
  let dhi := hi * 10 ^ N.of_nat p - x in
  match readsBack x lo p, readsBack x hi p with
  | true, true =>
      if dlo <? dhi then Some (lo, p)
      else if dhi <? dlo then Some (hi, p)
      else if N.even lo then Some (lo, p) else Some (hi, p)
  | true, false => Some (lo, p)
  | false, true => Some (hi, p)
  | false, false => None
  end.

(** The decimal with the fewest digits, [k] or more, that reads back. *)
Fixpoint shortest (x : N) (k : nat) (fuel : nat) : option (N * nat) :=
  match fuel with
  | O => None
  | S fuel' =>
      match candidate x k with
      | Some sp => Some sp
      | None => shortest x (S k) fuel'
      end
  end.

Fixpoint stripZeros (fuel : nat) (s : N) (p : nat) : N * nat :=
  match fuel with
  | O => (s, p)
  | S fuel' =>
      if (s mod 10 =? 0) && negb (s =? 0) then stripZeros fuel' (s / 10) (S p) else (s, p)
  end.

(** [Number::toString], as used by a template literal.  Below 2^53 every
    integer is a double and all its digits are printed.  From there on the
    fewest digits that read back are printed (seventeen always do), filled
    up with zeros below 10^21 and in exponent form from 10^21 on. *)
Definition numberToString (x : number) : string :=
  match x with
  | Infinity => "Infinity"
  | Num n =>
      if n <? two53 then decimal n
      else
        match shortest n 1 17 with
        | None => decimal n
        | Some (s, p) =>
            let '(s, p) := stripZeros 18 s p in
            let digits := decimal s in
            let k := String.length digits in
            let n10 := (k + p)%nat in
            if (n10 <=? 21)%nat then digits +:+ zeros p
            else
              match digits with
              | String d EmptyString => String d ("e+" +:+ decimal (N.of_nat (n10 - 1)))
              | String d rest =>
                  String d ("." +:+ rest +:+ "e+" +:+ decimal (N.of_nat (n10 - 1)))
              | EmptyString => EmptyString
              end
        end
  end.

(** Every character of the string is in the class. *)
Fixpoint allOf (cls : ascii -> bool) (s : string) : bool :=
  match s with
  | EmptyString => true
  | String c s' => cls c && allOf cls s'
  end.

(** A string is blank when it has no character other than white space. *)
Fixpoint blank (s : string) : bool :=
  match s with
  | EmptyString => true
  | String c s' => isWhiteSpace c && blank s'
  end.

End JS.

(** ** Regular expressions

    The three patterns of the program use literals, character classes,
    greedy [*] and [+] over a class, alternation, one capturing group and the
    [i] flag.  The matcher is the backtracking one of the language
    definition, written with continuations: a greedy quantifier first takes
    as many characters as it can and gives them back one at a time while the
    rest of the pattern fails. *)

Module RegExp.

Inductive regex : Type :=
| Eps
| Lit (c : ascii)
| Star (cls : ascii -> bool)
| Plus (cls : ascii -> bool)
| Cat (r1 r2 : regex)
| Alt (r1 r2 : regex)
| Group (r : regex).

(** Comparison of a pattern character under the [i] flag. *)
Definition ieq (a b : ascii) : bool := Ascii.eqb (JS.lower a) (JS.lower b).

(** A class under the [i] flag matches a character when it holds a case
    variant of it. *)
Definition icase (cls : ascii -> bool) : ascii -> bool :=
  fun c => cls c || cls (JS.lower c) || cls (JS.upper c).

Fixpoint lits (s : string) : regex :=
  match s with
  | EmptyString => Eps
  | String c s' => Cat (Lit c) (lits s')
  end.

Section Matcher.
Context {R : Type}.

(** Greedy [cls*] followed by the continuation [k]. *)
Fixpoint star (cls : ascii -> bool) (k : string -> option R) (s : string) : option R :=
  match s with
  | String c s' =>
      if cls c then
        match star cls k s' with
        | Some r => Some r
        | None => k s
        end
      else k s
  | EmptyString => k s
  end.

(** Greedy [cls+]: one character of the class, then [cls*]. *)
Definition plus (cls : ascii -> bool) (k : string -> option R) (s : string) : option R :=
  match s with
  | String c s' => if cls c then star cls k s' else None
  | EmptyString => None
  end.

End Matcher.

(** The part of [s] consumed when [rest] is what remains of it. *)
Definition consumed (s rest : string) : string :=
  String.substring 0 (String.length s - String.length rest) s.

(** [run r s cap k]: match [r] at the head of [s]; [cap] is the text of the
    capturing group so far. *)
Fixpoint run {R} (r : regex) (s : string) (cap : option string)
    (k : string -> option string -> option R) : option R :=
  match r with
  | Eps => k s cap
  | Lit c =>
      match s with
      | String d s' => if ieq c d then k s' cap else None
      | EmptyString => None
      end
  | Star cls => star cls (fun s' => k s' cap) s
  | Plus cls => plus cls (fun s' => k s' cap) s
  | Cat r1 r2 => run r1 s cap (fun s' cap' => run r2 s' cap' k)
  | Alt r1 r2 =>
      match run r1 s cap k with
      | Some x => Some x
      | None => run r2 s cap k
      end
  | Group r1 => run r1 s cap (fun s' _ => k s' (Some (consumed s s')))
  end.

(** [String.prototype.match] with a pattern without the [g] flag: the
    leftmost match; the result is the text of group 1. *)
Fixpoint exec (r : regex) (s : string) : option string :=
  match run r s None (fun _ cap => Some cap) with
  | Some cap => Some (default "" cap)
  | None =>
      match s with
      | EmptyString => None
      | String _ s' => exec r s'
      end
  end.

End RegExp.

(** ** The program *)

Module App.
Import JS RegExp.

Definition LF : ascii := "010"%char.
Definition colon : ascii := ":"%char.
Definition dquote : string := String "034"%char "".

(** *** Types *)

(** [floors: number | string] *)
Inductive Floors : Type :=
| FloorsNumber (x : number)
| FloorsString (s : string).

Record ProjectInfo : Type := {
  title : string;
  fileName : string;
  uploadDate : string;
  scale : string;
  sheetNumber : string
}.

Record StructuralElements : Type := {
  floors : Floors;
  type : string;
  foundation : option string
}.

Record AnalysisResult : Type := {
  documentType : string;
  projectInfo : ProjectInfo;
  drawings : list string;
  generalNotes : list string;
  keyFeatures : list string;
  materialsList : list string;
  structuralElements : StructuralElements;
  extractedText : string
}.

(** *** Helper functions of the extractor *)

(** [line.split(':')[1]?.trim() || fallback] *)
Definition labelValue (line fallback : string) : string :=
  match split line colon !! 1%nat with
  | Some v =>
      match trim v with
      | EmptyString => fallback
      | t => t
      end
  | None => fallback
  end.

Definition isDocumentTypeLine (line : string) : bool :=
  includes line "document type" || includes line "type of drawing".

(** The [for] loop of [extractDocumentType]: the [return] of the first line
    that passes the test, [None] when the loop runs to its end. *)
Fixpoint documentTypeLoop (lines : list string) : option string :=
  match lines with
  | [] => None
  | line :: rest =>
      if isDocumentTypeLine line
      then Some (labelValue line "Architectural Drawing")
      else documentTypeLoop rest
  end.

Definition extractDocumentType (text : string) : string :=
  let lines := split (toLowerCase text) LF in
  match documentTypeLoop lines with
  | Some result => result
  | None =>
      if includes (toLowerCase text) "floor plan" then "Floor Plan"
      else if includes (toLowerCase text) "elevation" then "Building Elevation"
      else if includes (toLowerCase text) "section" then "Building Section"
      else "Architectural Drawing"
  end.

Fixpoint projectTitleLoop (lines : list string) : option string :=
  match lines with
  | [] => None
  | line :: rest =>
      if includes (toLowerCase line) "project" || includes (toLowerCase line) "title"
      then Some (labelValue line "Architectural Project")
      else projectTitleLoop rest
  end.

Definition extractProjectTitle (text : string) : string :=
  let lines := split text LF in
  match projectTitleLoop lines with
  | Some result => result
  | None => "Architectural Project"
  end.

(** The pattern of [extractScale]: the word scale, then [[:\s]*], then the
    group: one or more of the digits, the slash, the double quote, white
    space, the equals sign, the apostrophe and the hyphen; flag [i]. *)
Definition scaleClass (c : ascii) : bool :=
  isDigit c || Ascii.eqb c "/" || Ascii.eqb c "034" || isWhiteSpace c ||
  Ascii.eqb c "=" || Ascii.eqb c "'" || Ascii.eqb c "-".

Definition colonOrSpace (c : ascii) : bool := Ascii.eqb c ":" || isWhiteSpace c.

Definition scaleRegex : regex :=
  Cat (lits "scale") (Cat (Star (icase colonOrSpace)) (Group (Plus (icase scaleClass)))).

Definition extractScale (text : string) : string :=
  match exec scaleRegex text with
  | Some g1 => trim g1
  | None => "Not specified"
  end.

(** [/sheet[:\s]*([A-Z0-9\-\.]+)/i] *)
Definition sheetClass (c : ascii) : bool :=
  in_range 65 90 c || isDigit c || Ascii.eqb c "-" || Ascii.eqb c ".".

Definition sheetRegex : regex :=
  Cat (lits "sheet") (Cat (Star (icase colonOrSpace)) (Group (Plus (icase sheetClass)))).

Definition extractSheetNumber (text : string) : string :=
  match exec sheetRegex text with
  | Some g1 => trim g1
  | None => "Not specified"
  end.

(** The loop shared by [extractDrawings], [extractNotes] and
    [extractFeatures]: a line is pushed, trimmed, when its lower-cased text
    includes one of the keywords. *)
Fixpoint keepLines (keywords : list string) (lines : list string) : list string :=
  match lines with
  | [] => []
  | line :: rest =>
      let lowerLine := toLowerCase line in
      if existsb (includes lowerLine) keywords
      then trim line :: keepLines keywords rest
      else keepLines keywords rest
  end.

(** [xs.length > 0 ? xs : [placeholder]] *)
Definition orPlaceholder (xs : list string) (placeholder : string) : list string :=
  match xs with
  | [] => [placeholder]
  | _ :: _ => xs
  end.

Definition extractDrawings (text : string) : list string :=
  let drawings :=
    keepLines ["elevation"; "plan"; "section"; "detail"; "view"; "drawing"] (split text LF) in
  orPlaceholder drawings "Architectural drawings present".

Definition extractNotes (text : string) : list string :=
  let notes :=
    keepLines ["note"; "specification"; "requirement"; "code"; "standard"] (split text LF) in
  orPlaceholder notes "Construction notes may be present".

Definition extractFeatures (text : string) : list string :=
  let features :=
    keepLines ["feature"; "element"; "room"; "space"; "area"; "design"] (split text LF) in
  orPlaceholder features "Architectural features identified".

Definition commonMaterials : list string :=
  ["concrete"; "steel"; "wood"; "brick"; "stone"; "glass"; "metal";
   "granite"; "copper"; "aluminum"; "vinyl"; "ceramic"; "tile";
   "drywall"; "insulation"; "roofing"; "flooring"; "siding"].

(** [material.charAt(0).toUpperCase() + material.slice(1)] *)
Definition capitalize (material : string) : string :=
  toUpperCase (charAt material 0) +:+ slice material 1.

Fixpoint materialsLoop (text : string) (vocabulary : list string) : list string :=
  match vocabulary with
  | [] => []
  | material :: rest =>
      if includes (toLowerCase text) material
      then capitalize material :: materialsLoop text rest
      else materialsLoop text rest
  end.

Definition extractMaterials (text : string) : list string :=
  let materials := materialsLoop text commonMaterials in
  orPlaceholder materials "Building materials specified".

(** [/(\d+)\s*(?:floor|story|level|storey)/i] *)
Definition floorRegex : regex :=
  Cat (Group (Plus isDigit))
    (Cat (Star isWhiteSpace)
       (Alt (lits "floor") (Alt (lits "story") (Alt (lits "level") (lits "storey"))))).

Definition extractStructuralElements (text : string) : StructuralElements :=
  let floorMatch := exec floorRegex text in
  let floors :=
    match floorMatch with
    | Some g1 => FloorsNumber (parseInt g1)
    | None => FloorsString "Not specified"
    end in
  let type := "Building structure" in
  let type := if includes (toLowerCase text) "residential" then "Residential structure" else type in
  let type := if includes (toLowerCase text) "commercial" then "Commercial structure" else type in
  let type := if includes (toLowerCase text) "office" then "Office building" else type in
  let type := if includes (toLowerCase text) "house" then "House" else type in
  {| floors := floors;
     type := type;
     foundation :=
       if includes (toLowerCase text) "foundation"
       then Some "Foundation details specified" else None |}.

(** The record built by the upload handler from the text of the model
    ([now] is [new Date().toISOString()]). *)
Definition analyze (analysisText originalname now : string) : AnalysisResult :=
  {| documentType := extractDocumentType analysisText;
     projectInfo :=
       {| title := extractProjectTitle analysisText;
          fileName := originalname;
          uploadDate := now;
          scale := extractScale analysisText;
          sheetNumber := extractSheetNumber analysisText |};
     drawings := extractDrawings analysisText;
     generalNotes := extractNotes analysisText;
     keyFeatures := extractFeatures analysisText;
     materialsList := extractMaterials analysisText;
     structuralElements := extractStructuralElements analysisText;
     extractedText := analysisText |}.

(** *** Fallback functions *)

Definition generateFallbackAnalysis (fileName now : string) : AnalysisResult :=
  {| documentType := "Architectural Drawing";
     projectInfo :=
       {| title := "Architectural Project";
          fileName := fileName;
          uploadDate := now;
          scale := "Various scales";
          sheetNumber := "Not specified" |};
     drawings :=
       ["Floor plans and elevations"; "Architectural details"; "Construction drawings"];
     generalNotes :=
       ["Construction to comply with local building codes";
        "All dimensions to be verified on site";
        "Materials subject to approval"];
     keyFeatures :=
       ["Architectural structure"; "Multiple rooms and spaces";
        "Standard construction details"; "Building systems integration"];
     materialsList := ["Concrete"; "Steel"; "Wood"; "Glass"; "Brick"];
     structuralElements :=
       {| floors := FloorsString "Multiple levels";
          type := "Building structure";
          foundation := Some "Foundation system" |};
     extractedText :=
       "This architectural drawing shows a building design with multiple floors and standard construction details. The drawing includes floor plans, elevations, and construction specifications typical of architectural projects." |}.

(** [${analysis.structuralElements.floors}] in a template literal *)
Definition floorsToString (f : Floors) : string :=
  match f with
  | FloorsNumber x => numberToString x
  | FloorsString s => s
  end.

Definition generateFallbackAnswer (question : string) (analysis : AnalysisResult) : string :=
  let questionLower := toLowerCase question in
  let se := structuralElements analysis in
  if includes questionLower "floor" || includes questionLower "story" || includes questionLower "level" then
    "Based on the architectural drawing analysis, this building has " +:+ floorsToString (floors se)
    +:+ " floors. The structure is designed as a " +:+ type se +:+ "."
  else if includes questionLower "material" || includes questionLower "construction" then
    "The materials specified in this project include: " +:+ join (materialsList analysis) ", "
    +:+ ". The construction uses " +:+ type se +:+ " methods."
  else if includes questionLower "room" || includes questionLower "space" || includes questionLower "layout" then
    "The building layout includes: " +:+ join (keyFeatures analysis) ", "
    +:+ ". The design shows " +:+ documentType analysis +:+ " with various architectural spaces."
  else if includes questionLower "drawing" || includes questionLower "plan" then
    "This document contains: " +:+ join (drawings analysis) ", "
    +:+ ". The main drawing type is " +:+ documentType analysis +:+ "."
  else
    "Based on the architectural drawing analysis, this is a " +:+ documentType analysis
    +:+ ". Key features include: " +:+ join (slice0 (keyFeatures analysis) 3) ", "
    +:+ ". The structure has " +:+ floorsToString (floors se)
    +:+ " floors and uses materials like " +:+ join (slice0 (materialsList analysis) 3) ", " +:+ ".".

(** *** The model gateway and the request handlers *)

Record GenerateRequest : Type := {
  model : string;
  prompt : string;
  images : list string
}.

(** What a request sees of the outside world.  A call that throws or
    rejects is [None].
    - [ollama_list i]: the model names answered by the [i]-th call of
      [ollama.list()] made while the request is handled;
    - [ollama_generate]: [response.response] of [ollama.generate];
    - [readBase64]: [encodeImageToBase64];
    - [now]: [new Date().toISOString()]. *)
Record World : Type := {
  ollama_list : nat -> option (list string);
  ollama_generate : GenerateRequest -> option string;
  readBase64 : string -> option string;
  now : string
}.

Definition isUsableName (name : string) : bool :=
  includes (toLowerCase name) "llama3.2" ||
  includes (toLowerCase name) "llama" ||
  includes (toLowerCase name) "llava".

Definition isVisionName (name : string) : bool :=
  includes (toLowerCase name) "llava" ||
  includes (toLowerCase name) "vision".

Definition isTextName (name : string) : bool :=
  includes (toLowerCase name) "gemma3" ||
  includes (toLowerCase name) "llama3.2" ||
  includes (toLowerCase name) "llama".

(** [checkOllamaStatus], as the [i]-th call of [ollama.list()]: its [catch]
    turns a failed call into [false]. *)
Definition checkOllamaStatus (w : World) (i : nat) : bool :=
  match ollama_list w i with
  | Some models => existsb isUsableName models
  | None => false
  end.

Definition visionPrompt : string :=
"Analyze this architectural drawing in detail. Please provide a comprehensive analysis including:

1. **Document Type**: What type of architectural drawing is this?
2. **Project Information**: Any visible project details, titles, or identification
3. **Drawings/Plans**: List all elevations, plans, sections, or details shown
4. **General Notes**: Any construction notes, specifications, or requirements
5. **Key Features**: Important architectural elements and design features
6. **Materials**: Building materials mentioned or shown
7. **Structural Elements**: Number of floors, building type, structural system
8. **Readable Text**: Any text, labels, or dimensions you can identify

Please be specific about what you can observe in the drawing and focus on details that would help someone understand this architectural design.".

Definition templatePrompt (originalname : string) : string :=
  "I have an architectural drawing file named " +:+ dquote +:+ originalname +:+ dquote +:+
". Based on typical architectural drawings, please provide a general analysis that includes:

1. Common elements found in architectural drawings
2. Typical project information structure
3. Standard drawing types (elevations, plans, sections)
4. Common construction notes and specifications
5. Typical building materials
6. Standard structural elements

Please provide a comprehensive template analysis that would be typical for an architectural drawing.".

Definition generalNote : string :=
"

Note: This is a general analysis. For detailed image analysis, please install LLaVA model with: ollama pull llava".

(** [req.file] as filled in by the upload middleware. *)
Record File : Type := {
  filename : string;
  originalname : string;
  mimetype : string;
  path : string
}.

(** The [aiProvider | note] discriminator of a successful response. *)
Inductive Origin : Type :=
| AiProvider (name : string)
| Note (text : string).

Inductive UploadResponse : Type :=
| UploadFailure (status : nat) (error : string)
| UploadSuccess (fileName : string) (analysis : AnalysisResult) (origin : Origin).

Inductive ChatResponse : Type :=
| ChatFailure (status : nat) (error : string)
| ChatSuccess (answer : string) (origin : Origin).

(** [analysisCache]: a [Map<string, AnalysisResult>], empty when the server
    starts, with its [set] and [get]. *)
Definition newCache : gmap string AnalysisResult := ∅.

Definition cacheSet (key : string) (value : AnalysisResult)
    (analysisCache : gmap string AnalysisResult) : gmap string AnalysisResult :=
  <[key := value]> analysisCache.

Definition cacheGet (key : string) (analysisCache : gmap string AnalysisResult)
    : option AnalysisResult :=
  analysisCache !! key.

(** The cache after a run of [set] calls on the cache of a fresh server. *)
Definition cacheAfter (sets : list (string * AnalysisResult)) : gmap string AnalysisResult :=
  foldl (fun analysisCache kv => cacheSet (fst kv) (snd kv) analysisCache) newCache sets.

(** The inner [try] block of the upload handler: the analysis text, or
    [None] when control reaches its [catch]. *)
Definition analysisText (w : World) (file : File) : option string :=
  models ← ollama_list w 1%nat;
  match find isVisionName models with
  | Some visionModel =>
      imageBase64 ← readBase64 w (path file);
      ollama_generate w {| model := visionModel; prompt := visionPrompt; images := [imageBase64] |}
  | None =>
      match find isTextName models with
      | Some textModel =>
          response ← ollama_generate w {| model := textModel;
                                   prompt := templatePrompt (originalname file);
                                   images := [] |};
          Some (response +:+ generalNote)
      | None => None
      end
  end.

Definition fallbackAnalysisNote : string :=
  "Using fallback analysis - please ensure Ollama is running with llava model for image analysis".

(** [app.post('/api/upload')]: the response and the cache after the request. *)
Definition upload (w : World) (file : option File) (analysisCache : gmap string AnalysisResult)
    : UploadResponse * gmap string AnalysisResult :=
  match file with
  | None => (UploadFailure 400 "No file uploaded", analysisCache)
  | Some file =>
      let fileName := filename file in
      let ollamaStatus := checkOllamaStatus w 0 in
      if negb ollamaStatus then
        (UploadFailure 500 "Ollama is not running or no suitable model found", analysisCache)
      else if startsWith (mimetype file) "image/" then
        match analysisText w file with
        | None =>
            let fallbackAnalysis := generateFallbackAnalysis (originalname file) (now w) in
            (UploadSuccess fileName fallbackAnalysis (Note fallbackAnalysisNote),
             cacheSet fileName fallbackAnalysis analysisCache)
        | Some text =>
            let analysisResult := analyze text (originalname file) (now w) in
            (UploadSuccess fileName analysisResult (AiProvider "Local Llama 3.2"),
             cacheSet fileName analysisResult analysisCache)
        end
      else (UploadFailure 400 "Only image files are supported", analysisCache)
  end.

Definition chatPrompt (question : string) (analysis : AnalysisResult) : string :=
"You are an expert architectural analyst. Based on the following analysis of an architectural drawing, please answer the user's question accurately and specifically.

Document Analysis:
" +:+ extractedText analysis +:+ "

Key Information:
- Document Type: " +:+ documentType analysis +:+ "
- Project: " +:+ title (projectInfo analysis) +:+ "
- Floors: " +:+ floorsToString (floors (structuralElements analysis)) +:+ "
- Materials: " +:+ join (materialsList analysis) ", " +:+ "
- Key Features: " +:+ join (keyFeatures analysis) ", " +:+ "

User Question: " +:+ question +:+ "

Please provide a detailed, specific answer based on the architectural drawing analysis above. Reference specific details from the drawing when possible.".

(** The inner [try] block of the chat handler. *)
Definition chatText (w : World) (question : string) (analysis : AnalysisResult) : option string :=
  models ← ollama_list w 1%nat;
  match find isTextName models with
  | None => None
  | Some name =>
      ollama_generate w {| model := name; prompt := chatPrompt question analysis; images := [] |}
  end.

(** [!question], [!fileName] on strings: only the empty string is falsy. *)
Definition falsy (s : string) : bool :=
  match s with
  | EmptyString => true
  | String _ _ => false
  end.

(** [app.post('/api/chat')]; the handler only reads the cache. *)
Definition chat (w : World) (question fileName : string)
    (analysisCache : gmap string AnalysisResult) : ChatResponse :=
  if falsy question || falsy fileName then
    ChatFailure 400 "Question and fileName are required"
  else
    match cacheGet fileName analysisCache with
    | None => ChatFailure 404 "Document analysis not found"
    | Some analysis =>
        let ollamaStatus := checkOllamaStatus w 0 in
        if negb ollamaStatus then
          ChatSuccess (generateFallbackAnswer question analysis)
            (Note "Using fallback response - Ollama not available")
        else
          match chatText w question analysis with
          | Some response => ChatSuccess response (AiProvider "Local Llama 3.2")
          | None =>
              ChatSuccess (generateFallbackAnswer question analysis)
                (Note "Using fallback response due to local AI limitations")
          end
    end.

(** *** The upload filter and the models endpoint *)

(** [allowedTypes] of the upload middleware and its [fileFilter]:
    [allowedTypes.includes(file.mimetype)]. *)
Definition allowedTypes : list string :=
  ["image/jpeg"; "image/png"; "image/gif"; "image/webp"].

Definition fileFilter (mimetype : string) : bool :=
  existsb (String.eqb mimetype) allowedTypes.

(** The body of a successful answer of [/api/models]. *)
Record ModelsBody : Type := {
  ollamaRunning : bool;
  allModels : list string;
  preferredVisionModel : option string;
  preferredTextModel : option string
}.

Inductive ModelsResponse : Type :=
| ModelsOk (body : ModelsBody)
| ModelsFailure (status : nat) (error : string).

(** [app.get('/api/models')].  A name found by [find] includes a family
    name and so is not empty: [?.name || null] is the name. *)
Definition modelsEndpoint (w : World) : ModelsResponse :=
  let ollamaStatus := checkOllamaStatus w 0 in
  if negb ollamaStatus then
    ModelsOk {| ollamaRunning := false; allModels := [];
                preferredVisionModel := None; preferredTextModel := None |}
  else
    match ollama_list w 1%nat with
    | Some models =>
        ModelsOk {| ollamaRunning := true; allModels := models;
                    preferredVisionModel := find isVisionName models;
                    preferredTextModel := find isTextName models |}
    | None => ModelsFailure 500 "Failed to list models"
    end.

End App.

(** ** Statements of the specification, written from its words *)

Module Spec.
Import JS App.

(** The building-type keywords in the order the specification lists them,
    each with its label. *)
Definition typeKeywords : list (string * string) :=
  [("residential", "Residential structure");
   ("commercial", "Commercial structure");
   ("office", "Office building");
   ("house", "House")].

Definition labelOf (hit : option (string * string)) : string :=
  match hit with
  | Some (_, label) => label
  | None => "Building structure"
  end.

(** First match wins: the label of the earliest listed keyword that the
    lower-cased text includes. *)
Definition firstMatchType (text : string) : string :=
  labelOf (find (fun kw => includes (toLowerCase text) (fst kw)) typeKeywords).

(** Last match wins: the label of the latest listed keyword that the
    lower-cased text includes. *)
Definition lastMatchType (text : string) : string :=
  labelOf (find (fun kw => includes (toLowerCase text) (fst kw)) (rev typeKeywords)).

(** The text has a line with an explicit document type label: the words
    document type followed by a colon, in any letter case. *)
Definition hasDocumentTypeLabel (text : string) : bool :=
  existsb (fun line => includes line "document type:") (split (toLowerCase text) LF).

(** A failure of the model gateway while a question is answered: the
    gateway is unusable, the listing of the models fails, no suitable text
    model is found, or the generate call throws. *)
Inductive GatewayFailure (w : World) (question : string) (analysis : AnalysisResult) : Prop :=
| Unusable :
    checkOllamaStatus w 0 = false -> GatewayFailure w question analysis
| ListingFails :
    ollama_list w 1%nat = None -> GatewayFailure w question analysis
| NoTextModel (models : list string) :
    ollama_list w 1%nat = Some models ->
    find isTextName models = None ->
    GatewayFailure w question analysis
| GenerateThrows (models : list string) (name : string) :
    ollama_list w 1%nat = Some models ->
    find isTextName models = Some name ->
    ollama_generate w {| model := name; prompt := chatPrompt question analysis; images := [] |}
      = None ->
    GatewayFailure w question analysis.

(** The question mentions one of the words, in any letter case. *)
Definition mentions (question : string) (words : list string) : bool :=
  existsb (includes (toLowerCase question)) words.

(** The alternatives at the end of the floor pattern. *)
Definition floorWords : RegExp.regex :=
  RegExp.Alt (RegExp.lits "floor")
    (RegExp.Alt (RegExp.lits "story")
       (RegExp.Alt (RegExp.lits "level") (RegExp.lits "storey"))).

(** A keyword that starts with a character other than white space. *)
Definition wordLike (keyword : string) : bool :=
  match keyword with
  | EmptyString => false
  | String c _ => negb (isWhiteSpace c)
  end.

(** First match wins over a table of keywords and labels, with a default. *)
Definition firstMatch (table : list (string * string)) (otherwise text : string) : string :=
  match find (fun kw => includes (toLowerCase text) (fst kw)) table with
  | Some (_, label) => label
  | None => otherwise
  end.

(** What a template literal prints for a [floors] value: the string itself,
    or the number as JavaScript converts a number to a string. *)
Definition floorsText (f : Floors) : string :=
  match f with
  | FloorsNumber x => numberToString x
  | FloorsString s => s
  end.

(** The material keywords in the order of the vocabulary, each with its
    name as it appears in a materials list: the keyword with its first
    letter in upper case. *)
Definition materialNames : list (string * string) :=
  [("concrete", "Concrete"); ("steel", "Steel"); ("wood", "Wood");
   ("brick", "Brick"); ("stone", "Stone"); ("glass", "Glass");
   ("metal", "Metal"); ("granite", "Granite"); ("copper", "Copper");
   ("aluminum", "Aluminum"); ("vinyl", "Vinyl"); ("ceramic", "Ceramic");
   ("tile", "Tile"); ("drywall", "Drywall"); ("insulation", "Insulation");
   ("roofing", "Roofing"); ("flooring", "Flooring"); ("siding", "Siding")].

(** The record of the latest [set] call with the key, if any. *)
Definition lastSet (key : string) (sets : list (string * AnalysisResult))
    : option AnalysisResult :=
  snd <$> find (fun kv => String.eqb (fst kv) key) (rev sets).

(** The note that the upload handler appends to the text of a text model,
    as the one line it is. *)
Definition generalNoteLine : string :=
  "Note: This is a general analysis. For detailed image analysis, please install LLaVA model with: ollama pull llava".

End Spec.

(** ** Sample worlds and requests *)

Module Sample.
Import JS App.

Definition clock : string := "2024-01-01T00:00:00.000Z".

(** The gateway answers, and lists no model. *)
Definition noModels : World :=
  {| ollama_list := fun _ => Some [];
     ollama_generate := fun _ => None;
     readBase64 := fun _ => Some "aGVsbG8=";
     now := clock |}.

(** The gateway lists a vision model when its status is checked and is gone
    when the handler lists the models again. *)
Definition vanishing : World :=
  {| ollama_list := fun i => match i with O => Some ["llava:7b"] | S _ => None end;
     ollama_generate := fun _ => None;
     readBase64 := fun _ => Some "aGVsbG8=";
     now := clock |}.

(** The gateway lists a text model whose generate call throws. *)
Definition throwing : World :=
  {| ollama_list := fun _ => Some ["llama3.2:3b"];
     ollama_generate := fun _ => None;
     readBase64 := fun _ => Some "aGVsbG8=";
     now := clock |}.

Definition planFile : File :=
  {| filename := "document-1704067200000-123456789.png";
     originalname := "plan.png";
     mimetype := "image/png";
     path := "uploads/document-1704067200000-123456789.png" |}.

Definition planRecord : AnalysisResult :=
  analyze "Document type: Floor Plan
A residential building with 2 floors, brick walls and a steel frame." "plan.png" clock.

(** The gateway lists a vision and a text model and answers every call. *)
Definition steady : World :=
  {| ollama_list := fun _ => Some ["llama3.2:3b"; "llava:7b"];
     ollama_generate := fun _ => Some "Document type: Section
Scale: 1/4
3 floors, concrete and glass.";
     readBase64 := fun _ => Some "aGVsbG8=";
     now := clock |}.

(** The gateway lists a text model only and answers every call. *)
Definition textOnly : World :=
  {| ollama_list := fun _ => Some ["llama3.2:3b"];
     ollama_generate := fun _ => Some "A typical floor plan of a house.";
     readBase64 := fun _ => Some "aGVsbG8=";
     now := clock |}.

End Sample.

(** ** The client

    The state of the [App] component of [client/src/App.tsx] and its
    handlers, each as the state after the handler has run to its end with
    no other event in between.  The answer of the server to a request is
    an argument: [None] when no answer arrives; [axios] rejects an answer
    whose status is not a success. *)

Module Client.
Import JS App.

Inductive Sender : Type := User | Ai.

Record ChatMessage : Type := {
  sender : Sender;
  content : string
}.

Record BrowserFile : Type := {
  name : string;
  mime : string
}.

Record State : Type := {
  uploadedFile : option BrowserFile;
  fileName : string;
  analysisResult : option AnalysisResult;
  isAnalyzing : bool;
  chatHistory : list ChatMessage;
  currentQuestion : string;
  isAnswering : bool
}.

Definition handleFileUpload (file : BrowserFile) (st : State) : State :=
  {| uploadedFile := Some file;
     fileName := "";
     analysisResult := None;
     isAnalyzing := isAnalyzing st;
     chatHistory := [];
     currentQuestion := currentQuestion st;
     isAnswering := isAnswering st |}.

Definition setCurrentQuestion (value : string) (st : State) : State :=
  {| uploadedFile := uploadedFile st;
     fileName := fileName st;
     analysisResult := analysisResult st;
     isAnalyzing := isAnalyzing st;
     chatHistory := chatHistory st;
     currentQuestion := value;
     isAnswering := isAnswering st |}.

(** [analyzeDocument]: the state and the text of the alert, if any. *)
Definition analyzeDocument (post : BrowserFile -> option UploadResponse) (st : State)
    : State * option string :=
  match uploadedFile st with
  | None => (st, None)
  | Some file =>
      match post file with
      | Some (UploadSuccess name analysis _) =>
          ({| uploadedFile := uploadedFile st;
              fileName := name;
              analysisResult := Some analysis;
              isAnalyzing := false;
              chatHistory := chatHistory st;
              currentQuestion := currentQuestion st;
              isAnswering := isAnswering st |}, None)
      | _ =>
          ({| uploadedFile := uploadedFile st;
              fileName := fileName st;
              analysisResult := analysisResult st;
              isAnalyzing := false;
              chatHistory := chatHistory st;
              currentQuestion := currentQuestion st;
              isAnswering := isAnswering st |},
           Some "Failed to analyze document. Please try again.")
      end
  end.

Definition errorMessage : ChatMessage :=
  {| sender := Ai; content := "Sorry, I encountered an error. Please try again." |}.

Definition handleQuestionSubmit (post : string -> string -> option ChatResponse) (st : State)
    : State :=
  if falsy (trim (currentQuestion st)) || falsy (fileName st) then st
  else
    let userMessage := {| sender := User; content := currentQuestion st |} in
    let reply :=
      match post (currentQuestion st) (fileName st) with
      | Some (ChatSuccess answer _) => {| sender := Ai; content := answer |}
      | _ => errorMessage
      end in
    {| uploadedFile := uploadedFile st;
       fileName := fileName st;
       analysisResult := analysisResult st;
       isAnalyzing := isAnalyzing st;
       chatHistory := (chatHistory st ++ [userMessage]) ++ [reply];
       currentQuestion := "";
       isAnswering := false |}.

(** The state of a fresh page, a file, and the page after the file is
    chosen. *)
Definition fresh : State :=
  {| uploadedFile := None; fileName := ""; analysisResult := None;
     isAnalyzing := false; chatHistory := []; currentQuestion := "";
     isAnswering := false |}.

Definition planImage : BrowserFile := {| name := "plan.png"; mime := "image/png" |}.

Definition chosen : State := handleFileUpload planImage fresh.

End Client.

(** * Properties *)

Import JS RegExp App.

(** ** Facts about the string primitives *)

Module JSFacts.

(** A case split over the 256 code units. *)
Ltac each_char c :=
  destruct c as [[|] [|] [|] [|] [|] [|] [|] [|]]; vm_compute; try reflexivity.


Lemma isWhiteSpace_lower c : isWhiteSpace (lower c) = isWhiteSpace c.
Proof. each_char c. Qed.

Lemma eqb_lower_LF c : Ascii.eqb (lower c) LF = Ascii.eqb c LF.
Proof. each_char c. Qed.

Lemma eqb_lower_colon c : Ascii.eqb (lower c) colon = Ascii.eqb c colon.
Proof. each_char c. Qed.


Lemma app_nil (s : string) : "" +:+ s = s.
Proof. reflexivity. Qed.

Lemma app_cons c (a b : string) : String c a +:+ b = String c (a +:+ b).
Proof. reflexivity. Qed.

Lemma app_assoc (a b c : string) : (a +:+ b) +:+ c = a +:+ b +:+ c.
Proof.
  induction a as [|x a IH]; [reflexivity|].
  rewrite !app_cons. f_equal. exact IH.
Qed.

Lemma startsWith_app p s : startsWith (p +:+ s) p = true.
Proof.
  induction p as [|c p IH].
  - now destruct s.
  - rewrite app_cons. simpl. now rewrite Ascii.eqb_refl, IH.
Qed.

Lemma includes_unfold s sub :
  includes s sub =
  startsWith s sub ||
  match s with
  | EmptyString => false
  | String _ s' => includes s' sub
  end.
Proof. destruct s; reflexivity. Qed.

Lemma includes_here s sub : startsWith s sub = true -> includes s sub = true.
Proof. intros H. rewrite includes_unfold, H. reflexivity. Qed.

Lemma includes_tail c s sub : includes s sub = true -> includes (String c s) sub = true.
Proof. intros H. rewrite includes_unfold, H. apply orb_true_r. Qed.

(** A string includes whatever stands between a prefix and a suffix of it. *)
Lemma includes_app a sub b : includes (a +:+ sub +:+ b) sub = true.
Proof.
  induction a as [|c a IH].
  - rewrite app_nil. apply includes_here, startsWith_app.
  - rewrite app_cons. apply includes_tail, IH.
Qed.

Lemma split_nonempty s sep : split s sep <> [].
Proof.
  induction s as [|c s IH]; simpl; [discriminate|].
  destruct (Ascii.eqb c sep); [discriminate|].
  destruct (split s sep); discriminate.
Qed.

(** Lower-casing commutes with splitting at a separator that lower-casing
    neither produces nor removes. *)
Lemma split_toLowerCase sep s :
  (forall c, Ascii.eqb (lower c) sep = Ascii.eqb c sep) ->
  split (toLowerCase s) sep = map toLowerCase (split s sep).
Proof.
  intros Hsep. induction s as [|c s IH]; simpl; [reflexivity|].
  rewrite Hsep, IH. destruct (Ascii.eqb c sep); [reflexivity|].
  pose proof (split_nonempty s sep) as Hne.
  destruct (split s sep); [contradiction|reflexivity].
Qed.

Lemma trimStart_toLowerCase s : trimStart (toLowerCase s) = toLowerCase (trimStart s).
Proof.
  induction s as [|c s IH]; simpl; [reflexivity|].
  rewrite isWhiteSpace_lower. now destruct (isWhiteSpace c).
Qed.

Lemma trimEnd_toLowerCase s : trimEnd (toLowerCase s) = toLowerCase (trimEnd s).
Proof.
  induction s as [|c s IH]; simpl; [reflexivity|].
  rewrite IH, isWhiteSpace_lower.
  destruct (trimEnd s); simpl; [now destruct (isWhiteSpace c)|reflexivity].
Qed.

Lemma trim_toLowerCase s : trim (toLowerCase s) = toLowerCase (trim s).
Proof. unfold trim. now rewrite trimStart_toLowerCase, trimEnd_toLowerCase. Qed.

(** What [trimEnd] keeps ends in a character that is not white space. *)
Lemma trimEnd_blank s : trimEnd s = "" <-> blank s = true.
Proof.
  induction s as [|c s IH]; simpl; [tauto|].
  destruct (trimEnd s) eqn:E.
  - destruct (isWhiteSpace c); simpl; [tauto|]. split; discriminate.
  - split; [discriminate|]. intros H. apply andb_true_iff in H as [_ H].
    apply IH in H. discriminate.
Qed.

Lemma trimStart_blank s : blank (trimStart s) = blank s.
Proof.
  induction s as [|c s IH]; simpl; [reflexivity|].
  destruct (isWhiteSpace c) eqn:E; simpl; [exact IH|]. now rewrite E.
Qed.

(** [trim] empties exactly the blank strings. *)
Lemma trim_empty s : trim s = "" <-> blank s = true.
Proof. unfold trim. rewrite trimEnd_blank. now rewrite trimStart_blank. Qed.

(** A non-empty [trim] is not blank. *)
Lemma trim_not_blank s : trim s <> "" -> blank (trim s) = false.
Proof.
  unfold trim. intros H.
  destruct (blank (trimEnd (trimStart s))) eqn:E; [|reflexivity].
  exfalso. apply H. apply trimEnd_blank.
  assert (Hk : forall t, blank (trimEnd t) = true -> blank t = true).
  { induction t as [|c t IH]; simpl; [tauto|].
    destruct (trimEnd t) eqn:Et.
    - destruct (isWhiteSpace c) eqn:Ec; simpl.
      + intros _. apply trimEnd_blank. exact Et.
      + rewrite Ec. discriminate.
    - simpl. intros Hb. apply andb_true_iff in Hb as [Hc Hb].
      rewrite Hc. simpl. apply IH. exact Hb. }
  now apply Hk.
Qed.

Lemma length_app (a b : string) :
  String.length (a +:+ b) = (String.length a + String.length b)%nat.
Proof.
  induction a as [|c a IH]; [reflexivity|].
  rewrite app_cons. simpl. now rewrite IH.
Qed.

Lemma substring_app (a b : string) : String.substring 0 (String.length a) (a +:+ b) = a.
Proof.
  induction a as [|c a IH].
  - rewrite app_nil. now destruct b.
  - rewrite app_cons. simpl. now rewrite IH.
Qed.

(** The first character of a non-empty [trim] of a string that starts with
    a character other than white space is that character. *)
Lemma trim_keeps_head c s :
  isWhiteSpace c = false -> blank (trim (String c s)) = false.
Proof.
  intros Hc. apply trim_not_blank. unfold trim. simpl. rewrite Hc. simpl.
  destruct (trimEnd s); [rewrite Hc|]; discriminate.
Qed.

End JSFacts.

(** ** Facts about the matcher *)

Module RegExpFacts.

Lemma consumed_app (m rest : string) : consumed (m +:+ rest) rest = m.
Proof.
  unfold consumed. rewrite JSFacts.length_app.
  replace (String.length m + String.length rest - String.length rest)%nat
    with (String.length m) by lia.
  apply JSFacts.substring_app.
Qed.

(** A successful [cls*] hands the continuation what is left after a run of
    characters of the class. *)
Lemma star_sound {R} cls (k : string -> option R) s r :
  star cls k s = Some r ->
  exists m rest, s = m +:+ rest /\ allOf cls m = true /\ k rest = Some r.
Proof.
  induction s as [|c s IH]; simpl.
  - intros H. exists "", "". auto.
  - destruct (cls c) eqn:Ec.
    + destruct (star cls k s) as [r'|] eqn:Es.
      * intros [= <-]. destruct (IH eq_refl) as (m & rest & -> & Hm & Hk).
        exists (String c m), rest. simpl. rewrite Ec, Hm. auto.
      * intros H. exists "", (String c s). auto.
    + intros H. exists "", (String c s). auto.
Qed.

(** A successful [cls+] has taken at least one character of the class. *)
Lemma plus_sound {R} cls (k : string -> option R) s r :
  plus cls k s = Some r ->
  exists c m rest,
    s = String c m +:+ rest /\ cls c = true /\ allOf cls m = true /\ k rest = Some r.
Proof.
  destruct s as [|c s]; simpl; [discriminate|].
  destruct (cls c) eqn:Ec; [|discriminate].
  intros H. apply star_sound in H as (m & rest & -> & Hm & Hk).
  exists c, m, rest. auto.
Qed.

(** A run of pattern characters leaves the capture as it was. *)
Lemma run_lits {R} p s cap (k : string -> option string -> option R) r :
  run (lits p) s cap k = Some r -> exists rest, k rest cap = Some r.
Proof.
  revert s. induction p as [|c p IH]; intros s; simpl.
  - eauto.
  - destruct s as [|d s]; [discriminate|].
    destruct (ieq c d); [apply IH|discriminate].
Qed.

(** A match found by [exec] is a match of the pattern at some position. *)
Lemma exec_sound r s g :
  exec r s = Some g ->
  exists t cap, run r t None (fun _ cap => Some cap) = Some cap /\ g = default "" cap.
Proof.
  induction s as [|c s IH]; simpl.
  - destruct (run r "" None (fun _ cap => Some cap)) as [cap|] eqn:E; [|discriminate].
    intros [= <-]. eauto.
  - destruct (run r (String c s) None (fun _ cap => Some cap)) as [cap|] eqn:E; [|exact IH].
    intros [= <-]. eauto.
Qed.

End RegExpFacts.

(** ** Structural elements *)

(** C3.  On the text of the specification's example the floor pattern finds
    no match, since a hyphen and not white space separates the digit from
    the word story: [floors] is the string placeholder and not the number 3;
    [type] and [foundation] are as the specification says. *)
Theorem extractStructuralElements_three_story :
  extractStructuralElements "This residential 3-story building..." =
  {| floors := FloorsString "Not specified";
     type := "Residential structure";
     foundation := None |}.
Proof. vm_compute. reflexivity. Qed.

(** With white space in place of the hyphen the number is found. *)
Example extractStructuralElements_three_space_story :
  extractStructuralElements "This residential 3 story building..." =
  {| floors := FloorsNumber (Num 3);
     type := "Residential structure";
     foundation := None |}.
Proof. vm_compute. reflexivity. Qed.

(** C4, as stated, fails: a text with both residential and house is
    classified House, not as the earliest keyword of the list. *)
Lemma building_type_first_match_fails :
  includes (toLowerCase "A residential house") "residential" = true /\
  includes (toLowerCase "A residential house") "house" = true /\
  type (extractStructuralElements "A residential house") = "House" /\
  type (extractStructuralElements "A residential house")
    <> Spec.firstMatchType "A residential house".
Proof. vm_compute. repeat split; try reflexivity. discriminate. Qed.

(** C4, amended.  The keywords are tested in the listed order and every hit
    overwrites the previous one, so the latest listed keyword that occurs
    in the text gives the type; without a hit the type is the default. *)
Theorem building_type_last_match (text : string) :
  type (extractStructuralElements text) = Spec.lastMatchType text.
Proof.
  unfold extractStructuralElements, Spec.lastMatchType, Spec.typeKeywords.
  cbn [type rev app find fst Spec.labelOf].
  destruct (includes (toLowerCase text) "house");
    destruct (includes (toLowerCase text) "office");
    destruct (includes (toLowerCase text) "commercial");
    destruct (includes (toLowerCase text) "residential"); reflexivity.
Qed.

(** ** Fallback answers *)

(** C9.  The answer to the question How many floors? contains the floor
    count of the record as a template literal prints it (the string itself
    when the count is a string, all decimal digits when it is a number below
    2^53) and the building type of the record. *)
Theorem fallbackAnswer_floors_question (record : AnalysisResult) :
  includes (generateFallbackAnswer "How many floors?" record)
    (Spec.floorsText (floors (structuralElements record))) = true /\
  (forall n, floors (structuralElements record) = FloorsNumber (Num n) ->
             n < 9007199254740992 ->
             includes (generateFallbackAnswer "How many floors?" record)
               (NilEmpty.string_of_uint (N.to_uint n)) = true) /\
  (forall s, floors (structuralElements record) = FloorsString s ->
             includes (generateFallbackAnswer "How many floors?" record) s = true) /\
  includes (generateFallbackAnswer "How many floors?" record)
    (type (structuralElements record)) = true.
Proof.
  set (T := type (structuralElements record)).
  assert (E : generateFallbackAnswer "How many floors?" record =
    "Based on the architectural drawing analysis, this building has "
    +:+ Spec.floorsText (floors (structuralElements record))
    +:+ " floors. The structure is designed as a " +:+ T +:+ ".") by reflexivity.
  rewrite E.
  assert (Hfloors : includes
    ("Based on the architectural drawing analysis, this building has "
     +:+ Spec.floorsText (floors (structuralElements record))
     +:+ " floors. The structure is designed as a " +:+ T +:+ ".")
    (Spec.floorsText (floors (structuralElements record))) = true)
    by apply JSFacts.includes_app.
  split; [exact Hfloors|]. split; [|split].
  - intros n Hn Hsafe. clear Hfloors. rewrite Hn.
    apply N.ltb_lt in Hsafe. fold two53 in Hsafe.
    unfold Spec.floorsText, numberToString. rewrite Hsafe.
    apply JSFacts.includes_app.
  - intros s Hs. clear Hfloors. rewrite Hs. apply JSFacts.includes_app.
  - pose proof (JSFacts.includes_app
      (("Based on the architectural drawing analysis, this building has "
        +:+ Spec.floorsText (floors (structuralElements record)))
       +:+ " floors. The structure is designed as a ") T ".") as H.
    rewrite !JSFacts.app_assoc in H. exact H.
Qed.

Lemma fallbackAnswer_floors_question_witness :
  includes (generateFallbackAnswer "How many floors?" Sample.planRecord) "2" = true /\
  includes (generateFallbackAnswer "How many floors?"
              (generateFallbackAnalysis "plan.png" Sample.clock)) "Multiple levels" = true.
Proof.
  split.
  - apply (proj1 (proj2 (fallbackAnswer_floors_question Sample.planRecord)) 2);
      reflexivity.
  - apply (proj1 (proj2 (proj2 (fallbackAnswer_floors_question
                                  (generateFallbackAnalysis "plan.png" Sample.clock))))).
    reflexivity.
Defined.

(** ** The non-emptiness invariant *)

(** C1.  A text in which the word scale is followed by white space and then
    by something that is not a scale leaves [projectInfo.scale] empty: the
    group of the pattern admits white space, captures the single blank and
    [trim] empties it; no placeholder is put in its place. *)
Theorem analyze_scale_empty (originalname now : string) :
  scale (projectInfo (analyze "Scale: not shown" originalname now)) = "".
Proof. reflexivity. Qed.

(** ** Document type *)

Lemma documentTypeLoop_none lines :
  existsb isDocumentTypeLine lines = false -> documentTypeLoop lines = None.
Proof.
  induction lines as [|line rest IH]; simpl; [reflexivity|].
  intros H. apply orb_false_iff in H as [H1 H2].
  rewrite H1. exact (IH H2).
Qed.

(** The loop over the lower-cased lines, read on the lines as written. *)
Lemma documentTypeLoop_lowered lines :
  documentTypeLoop (map toLowerCase lines) =
  option_map (fun line => labelValue (toLowerCase line) "Architectural Drawing")
    (find (fun line => isDocumentTypeLine (toLowerCase line)) lines).
Proof.
  induction lines as [|line rest IH]; simpl; [reflexivity|].
  destruct (isDocumentTypeLine (toLowerCase line)); [reflexivity|exact IH].
Qed.


(** C6, as stated, fails: a line labelled type of drawing decides the
    result although the text contains floor plan and has no document type
    label. *)
Lemma floor_plan_without_document_type_label_fails :
  includes (toLowerCase "Type of drawing: Site Map
Ground floor plan") "floor plan" = true /\
  Spec.hasDocumentTypeLabel "Type of drawing: Site Map
Ground floor plan" = false /\
  extractDocumentType "Type of drawing: Site Map
Ground floor plan" = "site map" /\
  extractDocumentType "Type of drawing: Site Map
Ground floor plan" <> "Floor Plan".
Proof. vm_compute. repeat split; try reflexivity. discriminate. Qed.

(** C6, amended.  A text that contains floor plan, in any letter case, and
    has no line containing the words document type or type of drawing, in
    any letter case, has document type Floor Plan. *)
Theorem extractDocumentType_floor_plan (text : string) :
  includes (toLowerCase text) "floor plan" = true ->
  existsb isDocumentTypeLine (split (toLowerCase text) LF) = false ->
  extractDocumentType text = "Floor Plan".
Proof.
  intros Hfp Hlines. unfold extractDocumentType.
  rewrite (documentTypeLoop_none _ Hlines), Hfp. reflexivity.
Qed.

Lemma extractDocumentType_floor_plan_witness :
  includes (toLowerCase "Sheet 2
Ground FLOOR Plan of the house") "floor plan" = true /\
  existsb isDocumentTypeLine (split (toLowerCase "Sheet 2
Ground FLOOR Plan of the house") LF) = false /\
  extractDocumentType "Sheet 2
Ground FLOOR Plan of the house" = "Floor Plan".
Proof.
  split; [reflexivity|]. split; [reflexivity|].
  apply extractDocumentType_floor_plan; reflexivity.
Defined.



(** ** The analysis cache *)

Lemma cacheAfter_snoc sets key value :
  cacheAfter (sets ++ [(key, value)]) = cacheSet key value (cacheAfter sets).
Proof. unfold cacheAfter. rewrite foldl_snoc. reflexivity. Qed.

Lemma cacheAfter_keys sets key :
  key ∉ map fst sets -> cacheGet key (cacheAfter sets) = None.
Proof.
  induction sets as [|[k v] sets IH] using rev_ind; intros Hk.
  - apply lookup_empty.
  - rewrite cacheAfter_snoc. unfold cacheGet, cacheSet.
    rewrite map_app in Hk. simpl in Hk.
    rewrite lookup_insert_ne.
    + apply IH. intros Hin. apply Hk. apply elem_of_app. now left.
    + intros ->. apply Hk. apply elem_of_app. right. apply list_elem_of_singleton. reflexivity.
Qed.

(** C7.  A [get] after a [set] of the same key returns the record that was
    set; on a cache built by [set] calls alone, a [get] of a key that none of
    them used returns nothing. *)
Theorem cache_get_after_set :
  (forall (analysisCache : gmap string AnalysisResult) key record,
     cacheGet key (cacheSet key record analysisCache) = Some record) /\
  (forall sets key, key ∉ map fst sets -> cacheGet key (cacheAfter sets) = None).
Proof.
  split.
  - intros analysisCache key record. apply lookup_insert_eq.
  - apply cacheAfter_keys.
Qed.

Lemma cache_get_after_set_witness :
  cacheGet "document-1.png"
    (cacheSet "document-1.png" (generateFallbackAnalysis "plan.png" "2024-01-01T00:00:00.000Z")
       newCache)
  = Some (generateFallbackAnalysis "plan.png" "2024-01-01T00:00:00.000Z") /\
  cacheGet "document-2.png"
    (cacheAfter [("document-1.png", generateFallbackAnalysis "plan.png" "2024-01-01T00:00:00.000Z")])
  = None.
Proof.
  split.
  - apply (proj1 cache_get_after_set).
  - apply (proj2 cache_get_after_set). vm_compute.
    intros H. apply list_elem_of_singleton in H. discriminate H.
Defined.

(** ** Materials *)

Lemma materialsLoop_sublist text vocabulary :
  sublist (materialsLoop text vocabulary) (map capitalize vocabulary).
Proof.
  induction vocabulary as [|material rest IH]; simpl; [constructor|].
  destruct (includes (toLowerCase text) material); now constructor.
Qed.

Lemma capitalized_vocabulary_NoDup :
  NoDup ("Building materials specified" :: map capitalize commonMaterials).
Proof. apply (bool_decide_unpack _). vm_compute. exact I. Qed.

Lemma extractMaterials_NoDup text : NoDup (extractMaterials text).
Proof.
  unfold extractMaterials, orPlaceholder.
  destruct (materialsLoop text commonMaterials) as [|x xs] eqn:E.
  - apply NoDup_singleton.
  - rewrite <- E. pose proof capitalized_vocabulary_NoDup as H.
    apply NoDup_cons in H as [_ H].
    exact (sublist_NoDup _ _ H (materialsLoop_sublist text commonMaterials)).
Qed.

Lemma materialsLoop_lowered text1 text2 vocabulary :
  toLowerCase text1 = toLowerCase text2 ->
  materialsLoop text1 vocabulary = materialsLoop text2 vocabulary.
Proof.
  intros E. induction vocabulary as [|m rest IH]; simpl; [reflexivity|].
  now rewrite E, IH.
Qed.

Lemma count_occ_absent (l : list string) x : x ∉ l -> count_occ string_dec l x = 0%nat.
Proof. intros H. apply count_occ_not_In. now rewrite <- list_elem_of_In. Qed.

(** Each capitalized keyword is pushed once when the text includes the
    keyword and never otherwise, whatever the vocabulary, as long as its
    capitalized words are distinct. *)
Lemma materialsLoop_count text vocabulary material :
  NoDup (map capitalize vocabulary) ->
  material ∈ vocabulary ->
  count_occ string_dec (materialsLoop text vocabulary) (capitalize material) =
  (if includes (toLowerCase text) material then 1 else 0)%nat.
Proof.
  induction vocabulary as [|v rest IH]; intros Hnd Hin; [inversion Hin|].
  simpl in Hnd. apply NoDup_cons in Hnd as [Hv Hrest].
  assert (Habsent : capitalize v ∉ materialsLoop text rest).
  { intros H. apply Hv. exact (elem_of_sublist _ _ _ H (materialsLoop_sublist text rest)). }
  apply elem_of_cons in Hin as [->|Hin].
  - simpl. destruct (includes (toLowerCase text) v); simpl.
    + destruct (string_dec (capitalize v) (capitalize v)); [|contradiction].
      now rewrite (count_occ_absent _ _ Habsent).
    + apply count_occ_absent, Habsent.
  - assert (Hne : capitalize v <> capitalize material).
    { intros E. apply Hv. rewrite E. apply list_elem_of_fmap. now exists material. }
    simpl. destruct (includes (toLowerCase text) v); simpl.
    + destruct (string_dec (capitalize v) (capitalize material)); [contradiction|].
      now apply IH.
    + now apply IH.
Qed.

(** C8.  [extractMaterials] reads nothing but the lower-cased text, so two
    runs on one text give one list; the list has no duplicates; and each
    keyword of the vocabulary occurs in it, with its first letter in upper
    case and the rest as it is, exactly once when the text includes the
    keyword (however often) and not at all otherwise. *)
Theorem extractMaterials_deduplicates (text : string) :
  (forall text', toLowerCase text' = toLowerCase text ->
                 extractMaterials text' = extractMaterials text) /\
  NoDup (extractMaterials text) /\
  map fst Spec.materialNames = commonMaterials /\
  Forall (fun entry =>
            count_occ string_dec (extractMaterials text) (snd entry) =
            (if includes (toLowerCase text) (fst entry) then 1 else 0)%nat)
         Spec.materialNames.
Proof.
  split; [|split; [|split]].
  - intros text' E. unfold extractMaterials.
    now rewrite (materialsLoop_lowered text' text commonMaterials E).
  - apply extractMaterials_NoDup.
  - reflexivity.
  - change Spec.materialNames
      with (map (fun material => (material, capitalize material)) commonMaterials).
    apply Forall_map. cbn [fst snd].
    apply Forall_forall. intros material Hin.
    pose proof capitalized_vocabulary_NoDup as Hnd.
    apply NoDup_cons in Hnd as [Hplaceholder Hnd].
    pose proof (materialsLoop_count text commonMaterials material Hnd Hin) as Hcount.
    unfold extractMaterials, orPlaceholder.
    destruct (materialsLoop text commonMaterials) as [|x xs] eqn:E; [|exact Hcount].
    rewrite <- Hcount. apply count_occ_absent.
    intros H. apply list_elem_of_singleton in H. apply Hplaceholder.
    rewrite <- H. apply list_elem_of_fmap. now exists material.
Qed.

Example extractMaterials_repeated :
  extractMaterials "Brick walls, BRICK piers, a steel frame and brick paving" = ["Steel"; "Brick"].
Proof. reflexivity. Qed.

(** ** The upload handler and the gateway *)

(** C2.  An image is uploaded while the gateway lists no model: the
    handler answers with status 500 and stores nothing under the key of the
    file; the fallback record and the fallback note are not reached. *)
Lemma upload_without_models_is_an_error :
  startsWith (mimetype Sample.planFile) "image/" = true /\
  checkOllamaStatus Sample.noModels 0 = false /\
  upload Sample.noModels (Some Sample.planFile) newCache =
    (UploadFailure 500 "Ollama is not running or no suitable model found", newCache) /\
  cacheGet (filename Sample.planFile)
    (snd (upload Sample.noModels (Some Sample.planFile) newCache)) = None.
Proof. repeat split; reflexivity. Qed.

(** The same for every gateway that fails the status check, every file and
    every cache. *)
Lemma upload_unusable_gateway (w : World) (file : File)
    (analysisCache : gmap string AnalysisResult) :
  checkOllamaStatus w 0 = false ->
  upload w (Some file) analysisCache =
    (UploadFailure 500 "Ollama is not running or no suitable model found", analysisCache).
Proof. intros H. unfold upload. now rewrite H. Qed.

(** The fallback record is stored when the status check passes and the
    analysis of the image then fails. *)
Lemma upload_fallback_after_status (w : World) (file : File)
    (analysisCache : gmap string AnalysisResult) :
  startsWith (mimetype file) "image/" = true ->
  checkOllamaStatus w 0 = true ->
  analysisText w file = None ->
  upload w (Some file) analysisCache =
    (UploadSuccess (filename file)
       (generateFallbackAnalysis (originalname file) (now w)) (Note fallbackAnalysisNote),
     cacheSet (filename file)
       (generateFallbackAnalysis (originalname file) (now w)) analysisCache).
Proof. intros Himage Hs Ht. unfold upload. now rewrite Hs, Himage, Ht. Qed.

Example upload_fallback_when_listing_vanishes :
  upload Sample.vanishing (Some Sample.planFile) newCache =
    (UploadSuccess (filename Sample.planFile)
       (generateFallbackAnalysis "plan.png" Sample.clock) (Note fallbackAnalysisNote),
     cacheSet (filename Sample.planFile)
       (generateFallbackAnalysis "plan.png" Sample.clock) newCache).
Proof. apply upload_fallback_after_status; reflexivity. Qed.

(** ** The chat handler and the gateway *)

(** C5.  A question about a cached document, asked while the gateway fails
    in any of the ways of [Spec.GatewayFailure], is answered with success,
    the answer being [generateFallbackAnswer] of the question and the cached
    record, under a fallback note. *)
Theorem chat_gateway_failure (w : World) (question fileName : string)
    (analysisCache : gmap string AnalysisResult) (record : AnalysisResult) :
  falsy question = false ->
  falsy fileName = false ->
  cacheGet fileName analysisCache = Some record ->
  Spec.GatewayFailure w question record ->
  exists note,
    chat w question fileName analysisCache =
    ChatSuccess (generateFallbackAnswer question record) (Note note).
Proof.
  intros Hq Hf Hget Hfail. unfold chat. rewrite Hq, Hf, Hget. simpl.
  destruct (checkOllamaStatus w 0) eqn:Hstatus; simpl; [|eauto].
  destruct Hfail as [H|H|models Hl Hm|models name Hl Hm Hg].
  - congruence.
  - unfold chatText. rewrite H. simpl. eauto.
  - unfold chatText. rewrite Hl. simpl. rewrite Hm. eauto.
  - unfold chatText. rewrite Hl. simpl. rewrite Hm, Hg. eauto.
Qed.

Lemma chat_gateway_failure_witness :
  exists note,
    chat Sample.throwing "Which materials are used?" "document-1.png"
      (cacheSet "document-1.png" Sample.planRecord newCache) =
    ChatSuccess (generateFallbackAnswer "Which materials are used?" Sample.planRecord)
      (Note note).
Proof.
  apply (chat_gateway_failure Sample.throwing "Which materials are used?" "document-1.png"
           (cacheSet "document-1.png" Sample.planRecord newCache) Sample.planRecord).
  - reflexivity.
  - reflexivity.
  - vm_compute. reflexivity.
  - apply (Spec.GenerateThrows _ _ _ ["llama3.2:3b"] "llama3.2:3b"); reflexivity.
Defined.

(** ** The fields that are never empty *)

Lemma labelValue_not_blank line fallback :
  blank fallback = false -> blank (labelValue line fallback) = false.
Proof.
  intros Hf. unfold labelValue.
  destruct (split line colon !! 1%nat) as [v|]; [|exact Hf].
  destruct (trim v) as [|c t] eqn:E; [exact Hf|].
  rewrite <- E. apply JSFacts.trim_not_blank. rewrite E. discriminate.
Qed.

Lemma documentTypeLoop_not_blank lines result :
  documentTypeLoop lines = Some result -> blank result = false.
Proof.
  induction lines as [|line rest IH]; simpl; [discriminate|].
  destruct (isDocumentTypeLine line); [|exact IH].
  intros [= <-]. now apply labelValue_not_blank.
Qed.

Lemma projectTitleLoop_not_blank lines result :
  projectTitleLoop lines = Some result -> blank result = false.
Proof.
  induction lines as [|line rest IH]; simpl; [discriminate|].
  destruct (includes (toLowerCase line) "project" || includes (toLowerCase line) "title");
    [|exact IH].
  intros [= <-]. now apply labelValue_not_blank.
Qed.

Lemma extractDocumentType_not_blank text : blank (extractDocumentType text) = false.
Proof.
  unfold extractDocumentType.
  destruct (documentTypeLoop (split (toLowerCase text) LF)) as [result|] eqn:E.
  - exact (documentTypeLoop_not_blank _ _ E).
  - destruct (includes (toLowerCase text) "floor plan"); [reflexivity|].
    destruct (includes (toLowerCase text) "elevation"); [reflexivity|].
    destruct (includes (toLowerCase text) "section"); reflexivity.
Qed.

Lemma extractProjectTitle_not_blank text : blank (extractProjectTitle text) = false.
Proof.
  unfold extractProjectTitle.
  destruct (projectTitleLoop (split text LF)) as [result|] eqn:E; [|reflexivity].
  exact (projectTitleLoop_not_blank _ _ E).
Qed.

(** The class of the sheet pattern holds no white space (the class of the
    scale pattern does). *)
Lemma sheetClass_not_space c : icase sheetClass c = true -> isWhiteSpace c = false.
Proof.
  destruct c as [[|] [|] [|] [|] [|] [|] [|] [|]]; vm_compute;
    intros H; first [reflexivity | discriminate H].
Qed.

Lemma extractSheetNumber_not_blank text : blank (extractSheetNumber text) = false.
Proof.
  unfold extractSheetNumber.
  destruct (exec sheetRegex text) as [g1|] eqn:E; [|reflexivity].
  apply RegExpFacts.exec_sound in E as (t & cap & Hrun & ->).
  unfold sheetRegex in Hrun.
  change (run (lits "sheet") t None
            (fun s1 cap1 =>
               star (icase colonOrSpace)
                 (fun s2 =>
                    plus (icase sheetClass)
                      (fun s3 => Some (Some (consumed s2 s3))) s2) s1) = Some cap) in Hrun.
  apply RegExpFacts.run_lits in Hrun as (s1 & Hrun).
  apply RegExpFacts.star_sound in Hrun as (m & s2 & _ & _ & Hrun).
  apply RegExpFacts.plus_sound in Hrun as (c & g & s3 & -> & Hc & _ & [= <-]).
  rewrite RegExpFacts.consumed_app. simpl default.
  apply JSFacts.trim_keeps_head, sheetClass_not_space, Hc.
Qed.

Lemma orPlaceholder_length xs placeholder :
  (0 < length (orPlaceholder xs placeholder))%nat.
Proof. destruct xs; simpl; lia. Qed.

(** X1.  Apart from [projectInfo.scale], the fields under the non-emptiness
    invariant are never empty: the four lists have an element and the
    document type, the title and the sheet number hold a character other
    than white space. *)
Theorem analyze_fields_not_empty (text originalname now : string) :
  (0 < length (drawings (analyze text originalname now)))%nat /\
  (0 < length (generalNotes (analyze text originalname now)))%nat /\
  (0 < length (keyFeatures (analyze text originalname now)))%nat /\
  (0 < length (materialsList (analyze text originalname now)))%nat /\
  blank (documentType (analyze text originalname now)) = false /\
  blank (title (projectInfo (analyze text originalname now))) = false /\
  blank (sheetNumber (projectInfo (analyze text originalname now))) = false.
Proof.
  simpl. repeat split.
  - apply orPlaceholder_length.
  - apply orPlaceholder_length.
  - apply orPlaceholder_length.
  - apply orPlaceholder_length.
  - apply extractDocumentType_not_blank.
  - apply extractProjectTitle_not_blank.
  - apply extractSheetNumber_not_blank.
Qed.

(** ** Questions about unknown documents *)

(** X2.  A question about a key that the cache does not hold is answered
    with status 404, whatever the gateway does. *)
Theorem chat_unknown_key (w : World) (question fileName : string)
    (analysisCache : gmap string AnalysisResult) :
  falsy question = false ->
  falsy fileName = false ->
  cacheGet fileName analysisCache = None ->
  chat w question fileName analysisCache = ChatFailure 404 "Document analysis not found".
Proof. intros Hq Hf Hget. unfold chat. now rewrite Hq, Hf, Hget. Qed.

Lemma chat_unknown_key_witness :
  chat Sample.throwing "How many floors?" "document-2.png"
    (cacheSet "document-1.png" Sample.planRecord newCache) =
  ChatFailure 404 "Document analysis not found".
Proof.
  apply chat_unknown_key; [reflexivity|reflexivity|].
  vm_compute. reflexivity.
Defined.

(** ** The upload handler and the cache *)

(** X3.  An upload leaves every key other than the file's own as it was. *)
Theorem upload_other_keys (w : World) (file : File)
    (analysisCache : gmap string AnalysisResult) (key : string) :
  key <> filename file ->
  cacheGet key (snd (upload w (Some file) analysisCache)) = cacheGet key analysisCache.
Proof.
  intros Hkey. unfold upload.
  destruct (negb (checkOllamaStatus w 0)); [reflexivity|].
  destruct (startsWith (mimetype file) "image/"); [|reflexivity].
  destruct (analysisText w file); simpl; unfold cacheGet, cacheSet;
    now rewrite lookup_insert_ne.
Qed.

Lemma upload_other_keys_witness :
  cacheGet "document-1.png"
    (snd (upload Sample.steady (Some Sample.planFile)
            (cacheSet "document-1.png" Sample.planRecord newCache)))
  = cacheGet "document-1.png" (cacheSet "document-1.png" Sample.planRecord newCache).
Proof. apply upload_other_keys. vm_compute. discriminate. Defined.

(** X4.  The response and the cache agree: a successful upload answers
    under the stored name of the file with the very record it has stored
    under that key, whose [projectInfo] carries the original name of the
    file and the time of the request; a failed upload leaves the cache as
    it was. *)
Theorem upload_response_matches_cache (w : World) (file : option File)
    (analysisCache : gmap string AnalysisResult) :
  match fst (upload w file analysisCache) with
  | UploadSuccess name analysis _ =>
      exists f, file = Some f /\ name = filename f /\
        cacheGet name (snd (upload w file analysisCache)) = Some analysis /\
        fileName (projectInfo analysis) = originalname f /\
        uploadDate (projectInfo analysis) = now w
  | UploadFailure _ _ => snd (upload w file analysisCache) = analysisCache
  end.
Proof.
  unfold upload. destruct file as [f|]; [|reflexivity].
  destruct (negb (checkOllamaStatus w 0)); [reflexivity|].
  destruct (startsWith (mimetype f) "image/"); [|reflexivity].
  destruct (analysisText w f); simpl; exists f;
    repeat split; apply lookup_insert_eq.
Qed.

(** X5.  A question asked under the key of a successful upload is always
    answered with success, whatever the gateway does by then; when the
    gateway is unusable by then, the answer is the fallback answer built
    from the record the upload returned. *)
Theorem upload_then_chat (w w' : World) (file : File)
    (analysisCache : gmap string AnalysisResult)
    (name : string) (analysis : AnalysisResult) (origin : Origin) (question : string) :
  fst (upload w (Some file) analysisCache) = UploadSuccess name analysis origin ->
  falsy name = false ->
  falsy question = false ->
  (exists answer origin',
     chat w' question name (snd (upload w (Some file) analysisCache))
     = ChatSuccess answer origin') /\
  (checkOllamaStatus w' 0 = false ->
   chat w' question name (snd (upload w (Some file) analysisCache))
   = ChatSuccess (generateFallbackAnswer question analysis)
       (Note "Using fallback response - Ollama not available")).
Proof.
  intros Hup Hname Hq.
  pose proof (upload_response_matches_cache w (Some file) analysisCache) as H.
  rewrite Hup in H. destruct H as (f & _ & _ & Hget & _).
  unfold chat. rewrite Hq, Hname, Hget. simpl. split.
  - destruct (checkOllamaStatus w' 0); simpl; [|eauto].
    destruct (chatText w' question analysis); eauto.
  - intros ->. reflexivity.
Qed.

Lemma upload_then_chat_witness :
  exists answer origin',
    chat Sample.noModels "Which materials are used?" (filename Sample.planFile)
      (snd (upload Sample.steady (Some Sample.planFile) newCache))
    = ChatSuccess answer origin'.
Proof.
  refine (proj1 (upload_then_chat Sample.steady Sample.noModels Sample.planFile newCache
                   (filename Sample.planFile) _ _ "Which materials are used?" _ _ _));
    reflexivity.
Defined.

(** X6.  A file that the upload filter lets through is an image for the
    handler: its upload is answered with success or with the status 500 of
    an unusable gateway, never with a status 400. *)
Theorem upload_of_filtered_file (w : World) (file : File)
    (analysisCache : gmap string AnalysisResult) :
  fileFilter (mimetype file) = true ->
  startsWith (mimetype file) "image/" = true /\
  ((exists analysis origin,
      fst (upload w (Some file) analysisCache) = UploadSuccess (filename file) analysis origin) \/
   fst (upload w (Some file) analysisCache)
   = UploadFailure 500 "Ollama is not running or no suitable model found").
Proof.
  intros Hfilter.
  assert (Himage : startsWith (mimetype file) "image/" = true).
  { unfold fileFilter, allowedTypes in Hfilter. simpl in Hfilter.
    repeat (apply orb_true_iff in Hfilter as [Hfilter|Hfilter]);
      try discriminate Hfilter;
      apply String.eqb_eq in Hfilter; rewrite Hfilter; reflexivity. }
  split; [exact Himage|]. unfold upload.
  destruct (negb (checkOllamaStatus w 0)); [now right|].
  rewrite Himage. left. destruct (analysisText w file); simpl; eauto.
Qed.

Lemma upload_of_filtered_file_witness :
  startsWith (mimetype Sample.planFile) "image/" = true /\
  ((exists analysis origin,
      fst (upload Sample.textOnly (Some Sample.planFile) newCache)
      = UploadSuccess (filename Sample.planFile) analysis origin) \/
   fst (upload Sample.textOnly (Some Sample.planFile) newCache)
   = UploadFailure 500 "Ollama is not running or no suitable model found").
Proof. apply upload_of_filtered_file. reflexivity. Defined.

(** ** The gateway: usable names and preferred models *)

Module IncludesFacts.

Lemma startsWith_sub s p q : startsWith s (p +:+ q) = true -> startsWith s p = true.
Proof.
  revert s. induction p as [|c p IH]; intros s; [now destruct s|].
  rewrite JSFacts.app_cons. destruct s as [|d s]; simpl; [discriminate|].
  intros H. apply andb_true_iff in H as [Hc H]. rewrite Hc. simpl. now apply IH.
Qed.

(** A string that includes a word includes every prefix of the word. *)
Lemma includes_sub s p q : includes s (p +:+ q) = true -> includes s p = true.
Proof.
  induction s as [|c s IH]; intros H.
  - rewrite (JSFacts.includes_unfold "" (p +:+ q)) in H.
    apply orb_true_iff in H as [H|H]; [|discriminate].
    apply JSFacts.includes_here, (startsWith_sub _ _ _ H).
  - rewrite (JSFacts.includes_unfold (String c s) (p +:+ q)) in H.
    apply orb_true_iff in H as [H|H].
    + apply JSFacts.includes_here, (startsWith_sub _ _ _ H).
    + apply JSFacts.includes_tail, IH, H.
Qed.

Lemma includes_refl s : includes s s = true.
Proof.
  pose proof (JSFacts.startsWith_app s "") as H.
  assert (E : s +:+ "" = s).
  { clear H. induction s as [|c s IH]; [reflexivity|].
    rewrite JSFacts.app_cons. now rewrite IH. }
  rewrite E in H. now apply JSFacts.includes_here.
Qed.

Lemma includes_app_r a t sub : includes t sub = true -> includes (a +:+ t) sub = true.
Proof.
  intros H. induction a as [|c a IH]; [exact H|].
  rewrite JSFacts.app_cons. now apply JSFacts.includes_tail.
Qed.

Lemma find_of_existsb {A} (p : A -> bool) (l : list A) :
  existsb p l = true -> exists x, find p l = Some x /\ x ∈ l /\ p x = true.
Proof.
  induction l as [|y l IH]; simpl; [discriminate|].
  destruct (p y) eqn:E.
  - intros _. exists y. repeat split; [left|exact E].
  - simpl. intros H. destruct (IH H) as (x & Hf & Hin & Hp).
    exists x. repeat split; [exact Hf|now right|exact Hp].
Qed.

End IncludesFacts.

Lemma isUsableName_families name :
  isUsableName name =
  includes (toLowerCase name) "llama" || includes (toLowerCase name) "llava".
Proof.
  unfold isUsableName.
  destruct (includes (toLowerCase name) "llama3.2") eqn:E; [|reflexivity].
  now rewrite (IncludesFacts.includes_sub _ "llama" "3.2" E).
Qed.

Lemma usable_is_vision_or_text name :
  isUsableName name = true -> isVisionName name = true \/ isTextName name = true.
Proof.
  rewrite isUsableName_families. unfold isVisionName, isTextName. intros H.
  apply orb_true_iff in H as [H|H]; rewrite H.
  - right. now rewrite !orb_true_r.
  - now left.
Qed.

(** X7.  The status check passes exactly when the listing succeeds and
    holds a name that contains, in any letter case, llama or llava; the
    test for llama3.2 adds nothing, and a name with gemma3 or vision alone
    does not count. *)
Theorem checkOllamaStatus_families (w : World) (i : nat) :
  checkOllamaStatus w i = true <->
  exists models name,
    ollama_list w i = Some models /\ name ∈ models /\
    (includes (toLowerCase name) "llama" = true \/
     includes (toLowerCase name) "llava" = true).
Proof.
  unfold checkOllamaStatus. split.
  - destruct (ollama_list w i) as [models|]; [|discriminate].
    intros H. apply existsb_exists in H as (name & Hin & Hname).
    rewrite isUsableName_families in Hname. apply orb_true_iff in Hname.
    exists models, name. repeat split; [now apply list_elem_of_In|exact Hname].
  - intros (models & name & -> & Hin & Hname).
    apply existsb_exists. exists name. split; [now apply list_elem_of_In|].
    rewrite isUsableName_families. now apply orb_true_iff.
Qed.

Example status_of_gemma_and_vision_only :
  checkOllamaStatus
    {| ollama_list := fun _ => Some ["gemma3:4b"; "granite-vision:2b"];
       ollama_generate := fun _ => None;
       readBase64 := fun _ => None;
       now := Sample.clock |} 0 = false.
Proof. reflexivity. Qed.

Lemma usable_listing_has_model (models : list string) :
  existsb isUsableName models = true ->
  (exists name, find isVisionName models = Some name /\ name ∈ models) \/
  (exists name, find isTextName models = Some name /\ name ∈ models).
Proof.
  intros H. apply existsb_exists in H as (name & Hin & Hname).
  destruct (usable_is_vision_or_text name Hname) as [Hv|Ht].
  - left. destruct (IncludesFacts.find_of_existsb isVisionName models) as (x & Hx & Hxin & _).
    { apply existsb_exists. eauto. }
    eauto.
  - right. destruct (IncludesFacts.find_of_existsb isTextName models) as (x & Hx & Hxin & _).
    { apply existsb_exists. eauto. }
    eauto.
Qed.

(** X8.  When the two listings of a request to the models endpoint agree,
    the endpoint answers with a body: for a usable gateway the body carries
    the listed names and at least one preferred model, each preferred model
    being one of the listed names; for an unusable one it carries no name
    and no preferred model. *)
Theorem modelsEndpoint_stable (w : World) :
  ollama_list w 1%nat = ollama_list w 0%nat ->
  exists body,
    modelsEndpoint w = ModelsOk body /\
    ollamaRunning body = checkOllamaStatus w 0 /\
    (forall name, preferredVisionModel body = Some name -> name ∈ allModels body) /\
    (forall name, preferredTextModel body = Some name -> name ∈ allModels body) /\
    if ollamaRunning body
    then ollama_list w 0%nat = Some (allModels body) /\
         (is_Some (preferredVisionModel body) \/ is_Some (preferredTextModel body))
    else allModels body = [] /\
         preferredVisionModel body = None /\ preferredTextModel body = None.
Proof.
  intros Hstable. unfold modelsEndpoint.
  destruct (checkOllamaStatus w 0) eqn:Hstatus; simpl.
  - unfold checkOllamaStatus in Hstatus. rewrite Hstable.
    destruct (ollama_list w 0%nat) as [models|]; [|discriminate].
    eexists. split; [reflexivity|]. simpl. repeat split.
    + intros name H. apply find_some in H as [H _]. now apply list_elem_of_In.
    + intros name H. apply find_some in H as [H _]. now apply list_elem_of_In.
    + destruct (usable_listing_has_model models Hstatus) as [(n & -> & _)|(n & -> & _)];
        [left|right]; eauto.
  - eexists. split; [reflexivity|]. simpl. repeat split; intros name H; discriminate H.
Qed.

Lemma modelsEndpoint_stable_witness :
  exists body,
    modelsEndpoint Sample.steady = ModelsOk body /\
    ollamaRunning body = true /\
    preferredVisionModel body = Some "llava:7b" /\
    preferredTextModel body = Some "llama3.2:3b".
Proof.
  destruct (modelsEndpoint_stable Sample.steady eq_refl) as (body & E & _).
  exists body. split; [exact E|].
  injection E as <-. repeat split.
Defined.

(** X9.  With a usable gateway whose two listings agree, an image that can
    be read and a model server that answers every generate call, the upload
    is answered with the record extracted from the text of the model, never
    with the fallback record: the handler always finds a vision or a text
    model. *)
Theorem upload_stable_gateway (w : World) (file : File)
    (analysisCache : gmap string AnalysisResult) :
  checkOllamaStatus w 0 = true ->
  ollama_list w 1%nat = ollama_list w 0%nat ->
  startsWith (mimetype file) "image/" = true ->
  is_Some (readBase64 w (path file)) ->
  (forall request, is_Some (ollama_generate w request)) ->
  exists text,
    analysisText w file = Some text /\
    fst (upload w (Some file) analysisCache) =
    UploadSuccess (filename file) (analyze text (originalname file) (now w))
      (AiProvider "Local Llama 3.2").
Proof.
  intros Hstatus Hstable Himage [img Himg] Hgen.
  assert (Htext : exists text, analysisText w file = Some text).
  { unfold analysisText. rewrite Hstable.
    unfold checkOllamaStatus in Hstatus.
    destruct (ollama_list w 0%nat) as [models|]; [|discriminate]. simpl.
    destruct (usable_listing_has_model models Hstatus) as [(n & Hn & _)|(n & Hn & _)].
    - rewrite Hn, Himg. simpl.
      destruct (Hgen {| model := n; prompt := visionPrompt; images := [img] |}) as [t Ht].
      rewrite Ht. eauto.
    - destruct (find isVisionName models) as [v|].
      + rewrite Himg. simpl.
        destruct (Hgen {| model := v; prompt := visionPrompt; images := [img] |}) as [t Ht].
        rewrite Ht. eauto.
      + rewrite Hn.
        destruct (Hgen {| model := n; prompt := templatePrompt (originalname file);
                          images := [] |}) as [t Ht].
        rewrite Ht. simpl. eauto. }
  destruct Htext as [text Htext]. exists text. split; [exact Htext|].
  unfold upload. rewrite Hstatus, Himage, Htext. reflexivity.
Qed.

Lemma upload_stable_gateway_witness :
  exists text,
    analysisText Sample.steady Sample.planFile = Some text /\
    fst (upload Sample.steady (Some Sample.planFile) newCache) =
    UploadSuccess (filename Sample.planFile) (analyze text "plan.png" Sample.clock)
      (AiProvider "Local Llama 3.2").
Proof.
  apply (upload_stable_gateway Sample.steady Sample.planFile newCache);
    try reflexivity.
  - eexists. reflexivity.
  - intros request. eexists. reflexivity.
Defined.

(** ** The advisory note of the text-only analysis *)

Module LinesFacts.

(** Splitting at a separator splits a text that has one in the middle into
    the pieces before and the pieces after. *)
Lemma split_app_sep a b sep :
  split (a +:+ String sep b) sep = split a sep ++ split b sep.
Proof.
  induction a as [|c a IH].
  - rewrite JSFacts.app_nil. simpl. now rewrite Ascii.eqb_refl.
  - rewrite JSFacts.app_cons. simpl. rewrite IH.
    destruct (Ascii.eqb c sep); [reflexivity|].
    pose proof (JSFacts.split_nonempty a sep) as Hne.
    destruct (split a sep); [contradiction|reflexivity].
Qed.

Lemma keepLines_app keywords l1 l2 :
  keepLines keywords (l1 ++ l2) = keepLines keywords l1 ++ keepLines keywords l2.
Proof.
  induction l1 as [|line l1 IH]; simpl; [reflexivity|].
  destruct (existsb (includes (toLowerCase line)) keywords); simpl; now rewrite IH.
Qed.

Lemma orPlaceholder_snoc xs x placeholder :
  orPlaceholder (xs ++ [x]) placeholder = xs ++ [x].
Proof. destruct xs; reflexivity. Qed.

End LinesFacts.

Lemma split_with_generalNote response :
  split (response +:+ generalNote) LF = split response LF ++ [""; Spec.generalNoteLine].
Proof.
  change generalNote with (String LF (String LF Spec.generalNoteLine)).
  rewrite LinesFacts.split_app_sep. reflexivity.
Qed.

(** X10.  When the listing has no vision model and the text model answers,
    the handler appends its advisory note to the answer before the
    extraction, and the extraction takes the note for content: the note is
    the last entry of [drawings] (it contains the word detailed) and the
    last entry of [generalNotes] (it starts with the word Note). *)
Theorem text_model_note_is_extracted (w : World) (file : File)
    (analysisCache : gmap string AnalysisResult)
    (models : list string) (name response : string) :
  checkOllamaStatus w 0 = true ->
  startsWith (mimetype file) "image/" = true ->
  ollama_list w 1%nat = Some models ->
  find isVisionName models = None ->
  find isTextName models = Some name ->
  ollama_generate w {| model := name; prompt := templatePrompt (originalname file);
                       images := [] |} = Some response ->
  exists analysis,
    fst (upload w (Some file) analysisCache) =
      UploadSuccess (filename file) analysis (AiProvider "Local Llama 3.2") /\
    extractedText analysis = response +:+ generalNote /\
    last (drawings analysis) = Some Spec.generalNoteLine /\
    last (generalNotes analysis) = Some Spec.generalNoteLine.
Proof.
  intros Hstatus Himage Hlist Hvision Htext Hgen.
  eexists. split.
  - unfold upload, analysisText.
    rewrite Hstatus, Himage, Hlist. simpl. rewrite Hvision, Htext, Hgen. reflexivity.
  - cbn [extractedText drawings generalNotes analyze]. split; [reflexivity|].
    unfold extractDrawings, extractNotes.
    rewrite split_with_generalNote, !LinesFacts.keepLines_app.
    change (keepLines _ [""; Spec.generalNoteLine]) with [Spec.generalNoteLine].
    rewrite LinesFacts.orPlaceholder_snoc, last_snoc.
    split; [reflexivity|].
    change (keepLines ["note"; "specification"; "requirement"; "code"; "standard"]
              [""; Spec.generalNoteLine]) with [Spec.generalNoteLine].
    now rewrite LinesFacts.orPlaceholder_snoc, last_snoc.
Qed.

Lemma text_model_note_is_extracted_witness :
  exists analysis,
    fst (upload Sample.textOnly (Some Sample.planFile) newCache) =
      UploadSuccess (filename Sample.planFile) analysis (AiProvider "Local Llama 3.2") /\
    extractedText analysis = "A typical floor plan of a house." +:+ generalNote /\
    last (drawings analysis) = Some Spec.generalNoteLine /\
    last (generalNotes analysis) = Some Spec.generalNoteLine.
Proof.
  apply (text_model_note_is_extracted Sample.textOnly Sample.planFile newCache
           ["llama3.2:3b"] "llama3.2:3b"); reflexivity.
Defined.

(** ** The templates of the fallback answer *)

Module AnswerFacts.

Lemma startsWith_app_l a b sub : startsWith a sub = true -> startsWith (a +:+ b) sub = true.
Proof.
  revert a. induction sub as [|c sub IH]; intros a; [now destruct (a +:+ b)|].
  destruct a as [|d a]; [discriminate|].
  rewrite JSFacts.app_cons. simpl.
  intros H. apply andb_true_iff in H as [Hc H].
  rewrite Hc. simpl. now apply IH.
Qed.

Lemma includes_app_l a b sub : includes a sub = true -> includes (a +:+ b) sub = true.
Proof.
  induction a as [|c a IH]; intros H.
  - rewrite (JSFacts.includes_unfold "" sub) in H.
    apply orb_true_iff in H as [H|H]; [|discriminate].
    apply JSFacts.includes_here. now apply startsWith_app_l.
  - rewrite (JSFacts.includes_unfold (String c a) sub) in H.
    apply orb_true_iff in H as [H|H].
    + apply JSFacts.includes_here. now apply startsWith_app_l.
    + rewrite JSFacts.app_cons. apply JSFacts.includes_tail, IH, H.
Qed.

(** A joined list includes each of its elements. *)
Lemma includes_join (l : list string) sep x : x ∈ l -> includes (join l sep) x = true.
Proof.
  induction l as [|y l IH]; intros Hin; [inversion Hin|].
  destruct l as [|z l].
  - apply list_elem_of_singleton in Hin as ->. apply IncludesFacts.includes_refl.
  - change (join (y :: z :: l) sep) with (y +:+ sep +:+ join (z :: l) sep).
    apply elem_of_cons in Hin as [->|Hin].
    + apply includes_app_l, IncludesFacts.includes_refl.
    + apply IncludesFacts.includes_app_r, IncludesFacts.includes_app_r, IH, Hin.
Qed.

(** The shape of every template: a text, a part, a text, a part, a text. *)
Lemma includes_first p1 a p2 b p3 : includes (p1 +:+ a +:+ p2 +:+ b +:+ p3) a = true.
Proof. apply JSFacts.includes_app. Qed.

Lemma includes_second p1 a p2 b p3 : includes (p1 +:+ a +:+ p2 +:+ b +:+ p3) b = true.
Proof.
  apply IncludesFacts.includes_app_r, IncludesFacts.includes_app_r, IncludesFacts.includes_app_r.
  apply includes_app_l, IncludesFacts.includes_refl.
Qed.

Lemma includes_in_first p1 (l : list string) sep p2 b p3 x :
  x ∈ l -> includes (p1 +:+ join l sep +:+ p2 +:+ b +:+ p3) x = true.
Proof.
  intros H. apply IncludesFacts.includes_app_r, includes_app_l, includes_join, H.
Qed.

Lemma mentions3 q a b c :
  Spec.mentions q [a; b; c] =
  includes (toLowerCase q) a || includes (toLowerCase q) b || includes (toLowerCase q) c.
Proof. unfold Spec.mentions. simpl. now rewrite orb_false_r, orb_assoc. Qed.

Lemma mentions2 q a b :
  Spec.mentions q [a; b] = includes (toLowerCase q) a || includes (toLowerCase q) b.
Proof. unfold Spec.mentions. simpl. now rewrite orb_false_r. Qed.

End AnswerFacts.

(** X11.  Every question that mentions floor, story or level, whatever else
    it mentions, is answered with the floor template: the answer contains
    the floor count of the record as a template literal prints it, and the
    building type of the record. *)
Theorem fallbackAnswer_floor_questions (question : string) (record : AnalysisResult) :
  Spec.mentions question ["floor"; "story"; "level"] = true ->
  includes (generateFallbackAnswer question record)
    (Spec.floorsText (floors (structuralElements record))) = true /\
  includes (generateFallbackAnswer question record)
    (type (structuralElements record)) = true.
Proof.
  rewrite AnswerFacts.mentions3. intros H.
  unfold generateFallbackAnswer. cbv zeta. rewrite H.
  change (floorsToString (floors (structuralElements record)))
    with (Spec.floorsText (floors (structuralElements record))).
  split; [apply AnswerFacts.includes_first|apply AnswerFacts.includes_second].
Qed.

Lemma fallbackAnswer_floor_questions_witness :
  includes
    (generateFallbackAnswer "Which materials are used on the top LEVEL?" Sample.planRecord)
    "2" = true /\
  includes
    (generateFallbackAnswer "Which materials are used on the top LEVEL?" Sample.planRecord)
    "Residential structure" = true.
Proof.
  apply (fallbackAnswer_floor_questions "Which materials are used on the top LEVEL?"
           Sample.planRecord).
  reflexivity.
Defined.

(** The floor template on a count that is no double and on one from 10^21:
    the nearest double is stored and printed. *)
Example fallbackAnswer_large_counts :
  generateFallbackAnswer "How many floors?"
    (analyze "9007199254740993 floors" "plan.png" Sample.clock)
  = "Based on the architectural drawing analysis, this building has 9007199254740992 floors. The structure is designed as a Building structure." /\
  generateFallbackAnswer "How many floors?"
    (analyze "100000000000000000000000 floors" "plan.png" Sample.clock)
  = "Based on the architectural drawing analysis, this building has 1e+23 floors. The structure is designed as a Building structure.".
Proof. split; vm_compute; reflexivity. Qed.

(** X12.  A question that mentions material or construction, and none of
    floor, story and level, is answered with the materials template: the
    answer contains every entry of the materials list of the record, and
    its building type. *)
Theorem fallbackAnswer_material_questions (question : string) (record : AnalysisResult) :
  Spec.mentions question ["floor"; "story"; "level"] = false ->
  Spec.mentions question ["material"; "construction"] = true ->
  Forall (fun material => includes (generateFallbackAnswer question record) material = true)
    (materialsList record) /\
  includes (generateFallbackAnswer question record) (type (structuralElements record)) = true.
Proof.
  rewrite AnswerFacts.mentions3, AnswerFacts.mentions2. intros H1 H2.
  unfold generateFallbackAnswer. cbv zeta. rewrite H1, H2. split.
  - apply Forall_forall. intros m Hm. now apply AnswerFacts.includes_in_first.
  - apply AnswerFacts.includes_second.
Qed.

Lemma fallbackAnswer_material_questions_witness :
  Forall (fun material =>
            includes (generateFallbackAnswer "What MATERIALS are used?" Sample.planRecord)
              material = true)
    ["Steel"; "Brick"] /\
  includes (generateFallbackAnswer "What MATERIALS are used?" Sample.planRecord)
    "Residential structure" = true.
Proof.
  apply (fallbackAnswer_material_questions "What MATERIALS are used?" Sample.planRecord);
    reflexivity.
Defined.

(** X13.  A question that mentions room, space or layout, and none of the
    words of the floor and materials templates, is answered with the layout
    template: the answer contains every key feature of the record, and its
    document type. *)
Theorem fallbackAnswer_layout_questions (question : string) (record : AnalysisResult) :
  Spec.mentions question ["floor"; "story"; "level"] = false ->
  Spec.mentions question ["material"; "construction"] = false ->
  Spec.mentions question ["room"; "space"; "layout"] = true ->
  Forall (fun feature => includes (generateFallbackAnswer question record) feature = true)
    (keyFeatures record) /\
  includes (generateFallbackAnswer question record) (documentType record) = true.
Proof.
  rewrite !AnswerFacts.mentions3, AnswerFacts.mentions2. intros H1 H2 H3.
  unfold generateFallbackAnswer. cbv zeta. rewrite H1, H2, H3. split.
  - apply Forall_forall. intros m Hm. now apply AnswerFacts.includes_in_first.
  - apply AnswerFacts.includes_second.
Qed.

Lemma fallbackAnswer_layout_questions_witness :
  Forall (fun feature =>
            includes (generateFallbackAnswer "How many rooms?"
                        (generateFallbackAnalysis "plan.png" Sample.clock)) feature = true)
    ["Architectural structure"; "Multiple rooms and spaces";
     "Standard construction details"; "Building systems integration"] /\
  includes (generateFallbackAnswer "How many rooms?"
              (generateFallbackAnalysis "plan.png" Sample.clock))
    "Architectural Drawing" = true.
Proof.
  apply (fallbackAnswer_layout_questions "How many rooms?"
           (generateFallbackAnalysis "plan.png" Sample.clock)); reflexivity.
Defined.

(** X14.  A question that mentions drawing or plan, and none of the words of
    the three templates before, is answered with the drawings template: the
    answer contains every entry of the drawings list of the record, and its
    document type. *)
Theorem fallbackAnswer_drawing_questions (question : string) (record : AnalysisResult) :
  Spec.mentions question ["floor"; "story"; "level"] = false ->
  Spec.mentions question ["material"; "construction"] = false ->
  Spec.mentions question ["room"; "space"; "layout"] = false ->
  Spec.mentions question ["drawing"; "plan"] = true ->
  Forall (fun drawing => includes (generateFallbackAnswer question record) drawing = true)
    (drawings record) /\
  includes (generateFallbackAnswer question record) (documentType record) = true.
Proof.
  rewrite !AnswerFacts.mentions3, !AnswerFacts.mentions2. intros H1 H2 H3 H4.
  unfold generateFallbackAnswer. cbv zeta. rewrite H1, H2, H3, H4. split.
  - apply Forall_forall. intros m Hm. now apply AnswerFacts.includes_in_first.
  - apply AnswerFacts.includes_second.
Qed.

Lemma fallbackAnswer_drawing_questions_witness :
  Forall (fun drawing =>
            includes (generateFallbackAnswer "Which plans are there?"
                        (generateFallbackAnalysis "plan.png" Sample.clock)) drawing = true)
    ["Floor plans and elevations"; "Architectural details"; "Construction drawings"] /\
  includes (generateFallbackAnswer "Which plans are there?"
              (generateFallbackAnalysis "plan.png" Sample.clock))
    "Architectural Drawing" = true.
Proof.
  apply (fallbackAnswer_drawing_questions "Which plans are there?"
           (generateFallbackAnalysis "plan.png" Sample.clock)); reflexivity.
Defined.

(** X15.  A question that mentions none of the words of the four templates
    is answered with the summary: the answer contains the document type of
    the record, its floor count as a template literal prints it, its first
    three key features and its first three materials. *)
Theorem fallbackAnswer_other_questions (question : string) (record : AnalysisResult) :
  Spec.mentions question ["floor"; "story"; "level"] = false ->
  Spec.mentions question ["material"; "construction"] = false ->
  Spec.mentions question ["room"; "space"; "layout"] = false ->
  Spec.mentions question ["drawing"; "plan"] = false ->
  includes (generateFallbackAnswer question record) (documentType record) = true /\
  includes (generateFallbackAnswer question record)
    (Spec.floorsText (floors (structuralElements record))) = true /\
  Forall (fun feature => includes (generateFallbackAnswer question record) feature = true)
    (firstn 3 (keyFeatures record)) /\
  Forall (fun material => includes (generateFallbackAnswer question record) material = true)
    (firstn 3 (materialsList record)).
Proof.
  rewrite !AnswerFacts.mentions3, !AnswerFacts.mentions2. intros H1 H2 H3 H4.
  unfold generateFallbackAnswer, slice0. cbv zeta. rewrite H1, H2, H3, H4.
  change (floorsToString (floors (structuralElements record)))
    with (Spec.floorsText (floors (structuralElements record))).
  split; [apply JSFacts.includes_app|].
  split; [|split].
  - do 4 apply IncludesFacts.includes_app_r. apply JSFacts.includes_app.
  - apply Forall_forall. intros m Hm.
    do 2 apply IncludesFacts.includes_app_r.
    now apply AnswerFacts.includes_in_first.
  - apply Forall_forall. intros m Hm.
    do 7 apply IncludesFacts.includes_app_r.
    apply AnswerFacts.includes_app_l, AnswerFacts.includes_join, Hm.
Qed.

Lemma fallbackAnswer_other_questions_witness :
  includes (generateFallbackAnswer "Who is the architect?" Sample.planRecord)
    "floor plan" = true /\
  includes (generateFallbackAnswer "Who is the architect?" Sample.planRecord) "2" = true /\
  Forall (fun feature =>
            includes (generateFallbackAnswer "Who is the architect?" Sample.planRecord)
              feature = true)
    ["Architectural features identified"] /\
  Forall (fun material =>
            includes (generateFallbackAnswer "Who is the architect?" Sample.planRecord)
              material = true)
    ["Steel"; "Brick"].
Proof.
  apply (fallbackAnswer_other_questions "Who is the architect?" Sample.planRecord);
    reflexivity.
Defined.

(** ** What the patterns need in the text *)

Module MatchFacts.

Lemma toLowerCase_app a b : toLowerCase (a +:+ b) = toLowerCase a +:+ toLowerCase b.
Proof.
  induction a as [|c a IH]; [reflexivity|].
  rewrite JSFacts.app_cons. simpl. rewrite IH. now rewrite JSFacts.app_cons.
Qed.

Lemma allOf_app cls a b : allOf cls (a +:+ b) = allOf cls a && allOf cls b.
Proof.
  induction a as [|c a IH]; [reflexivity|].
  rewrite JSFacts.app_cons. simpl. rewrite IH. now rewrite andb_assoc.
Qed.

(** A match found by [exec] is a match of the pattern at the head of a
    suffix of the text. *)
Lemma exec_suffix r s g :
  exec r s = Some g ->
  exists pre t cap,
    s = pre +:+ t /\ run r t None (fun _ cap => Some cap) = Some cap /\ g = default "" cap.
Proof.
  induction s as [|c s IH]; simpl.
  - destruct (run r "" None (fun _ cap => Some cap)) as [cap|] eqn:E; [|discriminate].
    intros [= <-]. exists "", "", cap. auto.
  - destruct (run r (String c s) None (fun _ cap => Some cap)) as [cap|] eqn:E.
    + intros [= <-]. exists "", (String c s), cap. auto.
    + intros H. destruct (IH H) as (pre & t & cap & -> & Hrun & Hg).
      exists (String c pre), t, cap. auto.
Qed.

(** Pattern characters match the text up to letter case. *)
Lemma run_lits_startsWith {R} p s cap (k : string -> option string -> option R) r :
  run (lits p) s cap k = Some r ->
  startsWith (toLowerCase s) (toLowerCase p) = true /\ exists rest, k rest cap = Some r.
Proof.
  revert s. induction p as [|c p IH]; intros s; simpl.
  - intros H. split; [now destruct (toLowerCase s)|eauto].
  - destruct s as [|d s]; [discriminate|]. simpl. unfold ieq.
    destruct (Ascii.eqb (lower c) (lower d)); [|discriminate].
    intros H. destruct (IH _ H) as [Hs Hk]. now rewrite Hs.
Qed.

(** A pattern that starts with a word only matches a text that includes the
    word, in some letter case. *)
Lemma exec_word p r s g :
  exec (Cat (lits p) r) s = Some g -> includes (toLowerCase s) (toLowerCase p) = true.
Proof.
  intros H. apply exec_suffix in H as (pre & t & cap & -> & Hrun & _).
  change (run (lits p) t None (fun s' cap' => run r s' cap' (fun _ cap => Some cap))
          = Some cap) in Hrun.
  apply run_lits_startsWith in Hrun as [Hs _].
  rewrite toLowerCase_app. apply IncludesFacts.includes_app_r, JSFacts.includes_here, Hs.
Qed.

Lemma allOf_trimStart cls s : allOf cls s = true -> allOf cls (trimStart s) = true.
Proof.
  induction s as [|c s IH]; simpl; [reflexivity|].
  intros H. destruct (isWhiteSpace c); [|exact H].
  apply andb_true_iff in H as [_ H]. now apply IH.
Qed.

Lemma allOf_trimEnd cls s : allOf cls s = true -> allOf cls (trimEnd s) = true.
Proof.
  induction s as [|c s IH]; simpl; [reflexivity|].
  intros H. apply andb_true_iff in H as [Hc H]. specialize (IH H).
  destruct (trimEnd s).
  - destruct (isWhiteSpace c); simpl; [reflexivity|]. now rewrite Hc.
  - simpl in *. now rewrite Hc, IH.
Qed.

Lemma allOf_trim cls s : allOf cls s = true -> allOf cls (trim s) = true.
Proof. intros H. now apply allOf_trimEnd, allOf_trimStart. Qed.

(** The text that the group of [stem[:\s]*(cls+)] captures. *)
Lemma exec_stem_group stem sep cls s g :
  exec (Cat (lits stem) (Cat (Star sep) (Group (Plus cls)))) s = Some g ->
  exists c m, g = String c m /\ cls c = true /\ allOf cls m = true.
Proof.
  intros H. apply RegExpFacts.exec_sound in H as (t & cap & Hrun & ->).
  change (run (lits stem) t None
            (fun s1 cap1 =>
               star sep
                 (fun s2 => plus cls (fun s3 => Some (Some (consumed s2 s3))) s2) s1)
          = Some cap) in Hrun.
  apply RegExpFacts.run_lits in Hrun as (s1 & Hrun).
  apply RegExpFacts.star_sound in Hrun as (m & s2 & _ & _ & Hrun).
  apply RegExpFacts.plus_sound in Hrun as (c & g & s3 & -> & Hc & Hg & [= <-]).
  rewrite RegExpFacts.consumed_app. simpl. eauto.
Qed.

End MatchFacts.

(** X16.  The scale of a text that does not contain the word scale, in any
    letter case, is Not specified; and every scale is Not specified or is
    made of digits, slashes, double quotes, white space, equals signs,
    apostrophes and hyphens alone. *)
Theorem extractScale_range (text : string) :
  (includes (toLowerCase text) "scale" = false -> extractScale text = "Not specified") /\
  (extractScale text = "Not specified" \/
   allOf (icase scaleClass) (extractScale text) = true).
Proof.
  unfold extractScale. destruct (exec scaleRegex text) as [g1|] eqn:E.
  - split.
    + intros H. apply MatchFacts.exec_word in E.
      change (toLowerCase "scale") with "scale" in E. congruence.
    + right. apply MatchFacts.exec_stem_group in E as (c & m & -> & Hc & Hm).
      apply MatchFacts.allOf_trim. simpl. now rewrite Hc, Hm.
  - split; [reflexivity|now left].
Qed.

Lemma extractScale_range_witness :
  extractScale "Plan of the ground floor, 1:100" = "Not specified" /\
  allOf (icase scaleClass) (extractScale "SCALE: 1/4 = 1'-0 on sheet A-1") = true.
Proof.
  split.
  - apply (proj1 (extractScale_range "Plan of the ground floor, 1:100")). reflexivity.
  - destruct (proj2 (extractScale_range "SCALE: 1/4 = 1'-0 on sheet A-1")) as [H|H];
      [discriminate H|exact H].
Defined.

(** X17.  The sheet number of a text that does not contain the word sheet,
    in any letter case, is Not specified; and every sheet number is Not
    specified or a non-empty run of letters, digits, hyphens and dots. *)
Theorem extractSheetNumber_range (text : string) :
  (includes (toLowerCase text) "sheet" = false -> extractSheetNumber text = "Not specified") /\
  (extractSheetNumber text = "Not specified" \/
   (extractSheetNumber text <> "" /\
    allOf (icase sheetClass) (extractSheetNumber text) = true)).
Proof.
  unfold extractSheetNumber. destruct (exec sheetRegex text) as [g1|] eqn:E.
  - split.
    + intros H. apply MatchFacts.exec_word in E.
      change (toLowerCase "sheet") with "sheet" in E. congruence.
    + right. apply MatchFacts.exec_stem_group in E as (c & m & -> & Hc & Hm).
      pose proof (JSFacts.trim_keeps_head c m (sheetClass_not_space c Hc)) as Hnb.
      split.
      * intros E. rewrite E in Hnb. discriminate Hnb.
      * apply MatchFacts.allOf_trim. simpl. now rewrite Hc, Hm.
  - split; [reflexivity|now left].
Qed.

Lemma extractSheetNumber_range_witness :
  extractSheetNumber "Plan of the ground floor" = "Not specified" /\
  extractSheetNumber "Drawing SHEET: A-101.b rev 2" = "A-101.b".
Proof.
  split.
  - apply (proj1 (extractSheetNumber_range "Plan of the ground floor")). reflexivity.
  - destruct (proj2 (extractSheetNumber_range "Drawing SHEET: A-101.b rev 2")) as [H|[_ H]];
      [discriminate H|reflexivity].
Defined.

(** ** Floor counts *)

Module NumberFacts.

Lemma parseDigits_acc d acc :
  parseDigits (Npos acc) (NilEmpty.string_of_uint d) = Npos (Pos.of_uint_acc d acc).
Proof.
  revert acc. induction d; intros acc; [reflexivity|..];
    cbn [NilEmpty.string_of_uint Pos.of_uint_acc]; rewrite <- IHd;
    unfold parseDigits at 1; fold parseDigits;
    match goal with |- context [isDigit ?c] => change (isDigit c) with true end;
    cbv iota; f_equal; unfold digitValue;
    match goal with |- context [code ?c] => let v := eval vm_compute in (code c) in
                                            change (code c) with v end;
    lia.
Qed.

Lemma parseDigits_zero d : parseDigits 0 (NilEmpty.string_of_uint d) = N.of_uint d.
Proof.
  induction d; [reflexivity|exact IHd|..];
    cbn [NilEmpty.string_of_uint]; unfold parseDigits at 1; fold parseDigits;
    match goal with |- context [isDigit ?c] => change (isDigit c) with true end;
    cbv iota;
    match goal with |- context [(10 * 0 + digitValue ?c)%N] =>
      let v := eval vm_compute in (10 * 0 + digitValue c)%N in
      change (10 * 0 + digitValue c)%N with v end;
    apply parseDigits_acc.
Qed.

(** Parsing all decimal digits of an integer gives the number value of the
    integer, which below 2^53 is the integer. *)
Lemma parseInt_decimal n : parseInt (decimal n) = toNumber n.
Proof.
  unfold parseInt, decimal. rewrite parseDigits_zero.
  now rewrite DecimalN.Unsigned.of_to.
Qed.

Lemma toNumber_safe n : n < 9007199254740992 -> toNumber n = Num n.
Proof. intros H. unfold toNumber. apply N.ltb_lt in H. fold two53 in H. now rewrite H. Qed.

Lemma string_of_uint_digits d : allOf isDigit (NilEmpty.string_of_uint d) = true.
Proof. induction d; simpl; [reflexivity|..]; exact IHd. Qed.

Lemma decimal_digits n :
  exists d ds, decimal n = String d ds /\ isDigit d = true /\ allOf isDigit ds = true.
Proof.
  unfold decimal.
  pose proof (string_of_uint_digits (N.to_uint n)) as Hall.
  assert (Hne : N.to_uint n <> Decimal.Nil).
  { destruct n; [discriminate|]. apply DecimalPos.Unsigned.to_uint_nonnil. }
  destruct (N.to_uint n); [contradiction|..]; simpl in *; eauto.
Qed.

End NumberFacts.

Module GreedyFacts.

(** A greedy [cls*] in front of a run of the class takes the whole run when
    the rest of the pattern then succeeds. *)
Lemma star_greedy {R} cls (k : string -> option R) m rest r :
  allOf cls m = true -> star cls k rest = Some r -> star cls k (m +:+ rest) = Some r.
Proof.
  intros Hm Hrest. induction m as [|c m IH]; [exact Hrest|].
  simpl in Hm. apply andb_true_iff in Hm as [Hc Hm].
  rewrite JSFacts.app_cons. simpl. now rewrite Hc, (IH Hm).
Qed.

Lemma run_alt {R} r1 r2 s cap (k : string -> option string -> option R) x :
  run (Alt r1 r2) s cap k = Some x ->
  run r1 s cap k = Some x \/ run r2 s cap k = Some x.
Proof. simpl. destruct (run r1 s cap k); [now left|now right]. Qed.

(** The floor pattern at the head of a text, by its parts. *)
Lemma run_floorRegex t :
  run floorRegex t None (fun _ cap => Some cap) =
  plus isDigit
    (fun s1 =>
       star isWhiteSpace
         (fun s2 => run Spec.floorWords s2 (Some (consumed t s1)) (fun _ cap => Some cap)) s1) t.
Proof. reflexivity. Qed.

(** The floor pattern finds nothing that starts before the first digit. *)
Lemma exec_floorRegex_skip pre t :
  allOf (fun c => negb (isDigit c)) pre = true ->
  exec floorRegex (pre +:+ t) = exec floorRegex t.
Proof.
  induction pre as [|c pre IH]; [reflexivity|].
  intros H. cbn [allOf] in H. apply andb_true_iff in H as [Hc H].
  rewrite JSFacts.app_cons. cbn [exec]. rewrite run_floorRegex. cbn [plus].
  apply negb_true_iff in Hc. rewrite Hc. now apply IH.
Qed.

(** Each of the four words, at the head of a text, ends the digits, ends the
    white space and is matched by the alternatives of the pattern. *)
Lemma floor_word_matches {R} (kw post : string) (cap : option string)
    (k : string -> option R) :
  kw ∈ ["floor"; "story"; "level"; "storey"] ->
  star isDigit k (kw +:+ post) = k (kw +:+ post) /\
  star isWhiteSpace k (kw +:+ post) = k (kw +:+ post) /\
  run Spec.floorWords (kw +:+ post) cap (fun _ cap => Some cap) = Some cap.
Proof.
  intros H. repeat (apply elem_of_cons in H as [->|H]); [..|inversion H];
    repeat split; reflexivity.
Qed.

End GreedyFacts.

(** X18.  A decimal count that is the first digits of the text and is
    followed, after any white space or none, by floor, story, level or
    storey is the floor count, whatever precedes the count and whatever
    follows the word: [floors] is the double nearest to the count, which is
    the count itself when the count is below 2^53. *)
Theorem floors_of_counted_text (pre : string) (n : N) (ws kw post : string) :
  allOf (fun c => negb (isDigit c)) pre = true ->
  allOf isWhiteSpace ws = true ->
  kw ∈ ["floor"; "story"; "level"; "storey"] ->
  floors (extractStructuralElements
            (pre +:+ NilEmpty.string_of_uint (N.to_uint n) +:+ ws +:+ kw +:+ post))
  = FloorsNumber (toNumber n) /\
  (n < 9007199254740992 -> toNumber n = Num n).
Proof.
  intros Hpre Hws Hkw. split; [|apply NumberFacts.toNumber_safe].
  change (NilEmpty.string_of_uint (N.to_uint n)) with (decimal n).
  assert (E : exec floorRegex (pre +:+ decimal n +:+ ws +:+ kw +:+ post)
              = Some (decimal n)).
  { rewrite (GreedyFacts.exec_floorRegex_skip _ _ Hpre).
    destruct (NumberFacts.decimal_digits n) as (d & ds & En & Hd & Hds).
    rewrite En, JSFacts.app_cons. cbn [exec].
    rewrite GreedyFacts.run_floorRegex. cbn [plus]. rewrite Hd.
    set (t := String d (ds +:+ ws +:+ kw +:+ post)).
    assert (Ht : t = String d ds +:+ ws +:+ kw +:+ post) by reflexivity.
    match goal with |- context [star isDigit ?k _] => set (K := k) end.
    assert (HK : K (ws +:+ kw +:+ post) = Some (Some (String d ds))).
    { unfold K. rewrite Ht, RegExpFacts.consumed_app.
      apply GreedyFacts.star_greedy; [exact Hws|].
      destruct (GreedyFacts.floor_word_matches kw post (Some (String d ds))
                  (fun s2 => run Spec.floorWords s2 (Some (String d ds))
                               (fun _ cap => Some cap)) Hkw) as (_ & -> & ->).
      reflexivity. }
    assert (Hstop : star isDigit K (ws +:+ kw +:+ post) = K (ws +:+ kw +:+ post)).
    { destruct ws as [|w ws].
      - rewrite JSFacts.app_nil.
        now destruct (GreedyFacts.floor_word_matches kw post None K Hkw) as (-> & _).
      - rewrite JSFacts.app_cons. simpl star.
        simpl in Hws. apply andb_true_iff in Hws as [Hw _].
        assert (Hnd : isDigit w = false).
        { revert Hw. clear. destruct w as [[|] [|] [|] [|] [|] [|] [|] [|]]; vm_compute;
            intros H; first [reflexivity | discriminate H]. }
        now rewrite Hnd. }
    rewrite (GreedyFacts.star_greedy isDigit K ds _ _ Hds (eq_trans Hstop HK)).
    reflexivity. }
  unfold extractStructuralElements. cbn [floors]. rewrite E.
  now rewrite NumberFacts.parseInt_decimal.
Qed.

Lemma floors_of_counted_text_witness :
  floors (extractStructuralElements
            ("A house with " +:+ "12" +:+ "  " +:+ "storey" +:+ "s, built 1998"))
  = FloorsNumber (Num 12) /\
  floors (extractStructuralElements
            ("" +:+ "9007199254740993" +:+ " " +:+ "floor" +:+ "s"))
  = FloorsNumber (Num 9007199254740992).
Proof.
  split.
  - apply (proj1 (floors_of_counted_text "A house with " 12 "  " "storey" "s, built 1998"
                    eq_refl eq_refl ltac:(set_solver))).
  - apply (proj1 (floors_of_counted_text "" 9007199254740993 " " "floor" "s"
                    eq_refl eq_refl ltac:(set_solver))).
Defined.

Lemma floor_word_included (s : string) (cap cap' : option string) :
  run Spec.floorWords s cap (fun _ c => Some c) = Some cap' ->
  Spec.mentions s ["floor"; "story"; "level"; "storey"] = true.
Proof.
  intros H. unfold Spec.floorWords in H.
  assert (Hw : forall kw : string,
             run (lits kw) s cap (fun _ c => Some c) = Some cap' ->
             includes (toLowerCase s) (toLowerCase kw) = true).
  { intros kw Hk. apply MatchFacts.run_lits_startsWith in Hk as [Hk _].
    now apply JSFacts.includes_here. }
  unfold Spec.mentions. cbn [existsb].
  apply GreedyFacts.run_alt in H as [H|H].
  { apply (Hw "floor") in H. change (toLowerCase "floor") with "floor" in H.
    now rewrite H. }
  apply GreedyFacts.run_alt in H as [H|H].
  { apply (Hw "story") in H. change (toLowerCase "story") with "story" in H.
    rewrite H. now rewrite !orb_true_r. }
  apply GreedyFacts.run_alt in H as [H|H].
  - apply (Hw "level") in H. change (toLowerCase "level") with "level" in H.
    rewrite H. now rewrite !orb_true_r.
  - apply (Hw "storey") in H. change (toLowerCase "storey") with "storey" in H.
    rewrite H. now rewrite !orb_true_r.
Qed.

Lemma mentions_app_r (a s : string) (words : list string) :
  Spec.mentions s words = true -> Spec.mentions (a +:+ s) words = true.
Proof.
  unfold Spec.mentions. intros H. apply existsb_exists in H as (kw & Hin & Hkw).
  apply existsb_exists. exists kw. split; [exact Hin|].
  rewrite MatchFacts.toLowerCase_app. now apply IncludesFacts.includes_app_r.
Qed.

(** X19.  A floor count is only found in a text that has a decimal digit
    and one of the words floor, story, level and storey, in any letter
    case: without a digit, or without any of the words, [floors] is the
    string Not specified. *)
Theorem floors_not_specified (text : string) :
  allOf (fun c => negb (isDigit c)) text = true \/
  Spec.mentions text ["floor"; "story"; "level"; "storey"] = false ->
  floors (extractStructuralElements text) = FloorsString "Not specified".
Proof.
  intros H. unfold extractStructuralElements. cbn [floors].
  destruct (exec floorRegex text) as [g1|] eqn:E; [exfalso|reflexivity].
  apply MatchFacts.exec_suffix in E as (pre & t & cap & -> & Hrun & _).
  rewrite GreedyFacts.run_floorRegex in Hrun.
  apply RegExpFacts.plus_sound in Hrun as (c & m & s1 & Ht & Hc & _ & Hrun).
  apply RegExpFacts.star_sound in Hrun as (ws & s2 & -> & _ & Hrun).
  apply floor_word_included in Hrun. subst t.
  destruct H as [H|H].
  - rewrite MatchFacts.allOf_app, JSFacts.app_cons in H. cbn [allOf] in H.
    rewrite Hc in H. simpl in H. now rewrite andb_false_r in H.
  - rewrite (mentions_app_r pre _ _ (mentions_app_r (String c m) _ _
               (mentions_app_r ws _ _ Hrun))) in H.
    discriminate H.
Qed.

Lemma floors_not_specified_witness :
  floors (extractStructuralElements "A three-storey house") = FloorsString "Not specified" /\
  floors (extractStructuralElements "Built in 1998, 3 bedrooms") = FloorsString "Not specified".
Proof.
  split; apply floors_not_specified; [left|right]; reflexivity.
Defined.

(** ** The entries of the lists *)

Module EntryFacts.

Lemma blank_toLowerCase s : blank (toLowerCase s) = blank s.
Proof.
  induction s as [|c s IH]; simpl; [reflexivity|].
  now rewrite JSFacts.isWhiteSpace_lower, IH.
Qed.

(** A string that includes a word is not blank. *)
Lemma includes_not_blank s keyword :
  Spec.wordLike keyword = true -> includes s keyword = true -> blank s = false.
Proof.
  destruct keyword as [|c k]; [discriminate|]. simpl. intros Hc.
  apply negb_true_iff in Hc.
  induction s as [|d s IH]; intros H;
    rewrite JSFacts.includes_unfold in H; apply orb_true_iff in H as [H|H];
    try discriminate H.
  - simpl in H. apply andb_true_iff in H as [H _].
    apply Ascii.eqb_eq in H as <-. simpl. now rewrite Hc.
  - simpl. rewrite (IH H). apply andb_false_r.
Qed.

Lemma trimEnd_idem s : trimEnd (trimEnd s) = trimEnd s.
Proof.
  induction s as [|c s IH]; simpl; [reflexivity|].
  destruct (trimEnd s) as [|a b] eqn:E.
  - destruct (isWhiteSpace c) eqn:Ec; simpl; [reflexivity|]. now rewrite Ec.
  - simpl in *. now rewrite IH.
Qed.

Lemma trimStart_head c s : isWhiteSpace c = false -> trimStart (String c s) = String c s.
Proof. intros H. simpl. now rewrite H. Qed.

Lemma trimEnd_head c s :
  isWhiteSpace c = false -> exists t, trimEnd (String c s) = String c t.
Proof.
  intros H. simpl. destruct (trimEnd s); [rewrite H|]; eauto.
Qed.

Lemma trimStart_cases s :
  trimStart s = "" \/ exists c t, trimStart s = String c t /\ isWhiteSpace c = false.
Proof.
  induction s as [|c s IH]; simpl; [now left|].
  destruct (isWhiteSpace c) eqn:E; [exact IH|]. right. eauto.
Qed.

(** Trimming what is trimmed changes nothing. *)
Lemma trim_idem s : trim (trim s) = trim s.
Proof.
  unfold trim. destruct (trimStart_cases s) as [->|(c & t & -> & Hc)]; [reflexivity|].
  destruct (trimEnd_head c t Hc) as [u Hu]. rewrite Hu.
  rewrite (trimStart_head c u Hc), <- Hu. apply trimEnd_idem.
Qed.

(** What the line filters keep. *)
Lemma keepLines_entries keywords lines :
  forallb Spec.wordLike keywords = true ->
  Forall (fun entry => blank entry = false /\ trim entry = entry)
    (keepLines keywords lines).
Proof.
  intros Hk. induction lines as [|line rest IH]; simpl; [constructor|].
  destruct (existsb (includes (toLowerCase line)) keywords) eqn:E; [|exact IH].
  constructor; [|exact IH]. split; [|apply trim_idem].
  apply JSFacts.trim_not_blank. intros Ht. apply JSFacts.trim_empty in Ht.
  apply existsb_exists in E as (kw & Hin & Hkw).
  rewrite forallb_forall in Hk.
  pose proof (includes_not_blank _ kw (Hk kw Hin) Hkw) as Hb.
  rewrite blank_toLowerCase in Hb. congruence.
Qed.

Lemma orPlaceholder_entries (P : string -> Prop) xs placeholder :
  P placeholder -> Forall P xs -> Forall P (orPlaceholder xs placeholder).
Proof. intros Hp Hxs. destruct xs; [repeat constructor; exact Hp|exact Hxs]. Qed.

End EntryFacts.

(** X20.  Every entry of the four lists of an extracted record holds a
    character other than white space and has no white space at its ends. *)
Theorem analyze_entries_trimmed (text originalname now : string) :
  Forall (fun entry => blank entry = false /\ trim entry = entry)
    (drawings (analyze text originalname now) ++
     generalNotes (analyze text originalname now) ++
     keyFeatures (analyze text originalname now) ++
     materialsList (analyze text originalname now)).
Proof.
  cbn [analyze drawings generalNotes keyFeatures materialsList].
  repeat (apply Forall_app; split).
  - apply EntryFacts.orPlaceholder_entries; [now split|].
    now apply EntryFacts.keepLines_entries.
  - apply EntryFacts.orPlaceholder_entries; [now split|].
    now apply EntryFacts.keepLines_entries.
  - apply EntryFacts.orPlaceholder_entries; [now split|].
    now apply EntryFacts.keepLines_entries.
  - unfold extractMaterials. apply EntryFacts.orPlaceholder_entries; [now split|].
    assert (Hall : Forall (fun entry => blank entry = false /\ trim entry = entry)
                     (map capitalize commonMaterials)).
    { repeat constructor. }
    rewrite Forall_forall in Hall. apply Forall_forall. intros x Hx.
    apply Hall. exact (elem_of_sublist _ _ _ Hx (materialsLoop_sublist text commonMaterials)).
Qed.

(** X21.  The materials are listed in the order of the vocabulary, whatever
    their order in the text: the result is the placeholder alone or a
    sublist of the capitalized vocabulary. *)
Theorem extractMaterials_vocabulary_order (text : string) :
  extractMaterials text = ["Building materials specified"] \/
  sublist (extractMaterials text)
    ["Concrete"; "Steel"; "Wood"; "Brick"; "Stone"; "Glass"; "Metal";
     "Granite"; "Copper"; "Aluminum"; "Vinyl"; "Ceramic"; "Tile";
     "Drywall"; "Insulation"; "Roofing"; "Flooring"; "Siding"].
Proof.
  unfold extractMaterials, orPlaceholder.
  destruct (materialsLoop text commonMaterials) eqn:E; [now left|].
  right. rewrite <- E. exact (materialsLoop_sublist text commonMaterials).
Qed.

Example extractMaterials_text_order :
  extractMaterials "Glass on a steel frame over concrete" = ["Concrete"; "Steel"; "Glass"].
Proof. reflexivity. Qed.

(** X22.  After any run of [set] calls on a fresh cache, a [get] returns the
    record of the latest call with that key, and nothing when there was
    none: a later [set] replaces the record, and nothing is ever evicted. *)
Theorem cacheAfter_last_set (sets : list (string * AnalysisResult)) (key : string) :
  cacheGet key (cacheAfter sets) = Spec.lastSet key sets.
Proof.
  induction sets as [|[k v] sets IH] using rev_ind.
  - apply lookup_empty.
  - rewrite cacheAfter_snoc. unfold Spec.lastSet. rewrite rev_unit. simpl.
    unfold cacheGet, cacheSet. destruct (String.eqb k key) eqn:E.
    + apply String.eqb_eq in E as ->. apply lookup_insert_eq.
    + apply String.eqb_neq in E. rewrite lookup_insert_ne by exact E. exact IH.
Qed.

(** ** Document type and title: labels, values and keywords *)

(** X23.  When the first line with a document type or type of drawing
    label has no colon, or nothing but white space between its first and
    its second colon, the document type is the default, whatever keywords
    the text contains: the loop returns at that line. *)
Theorem extractDocumentType_label_without_value (text line : string) :
  find (fun l => isDocumentTypeLine (toLowerCase l)) (split text LF) = Some line ->
  from_option blank true (split line colon !! 1%nat) = true ->
  extractDocumentType text = "Architectural Drawing".
Proof.
  intros Hline Hblank. unfold extractDocumentType.
  rewrite (JSFacts.split_toLowerCase LF text JSFacts.eqb_lower_LF).
  rewrite documentTypeLoop_lowered, Hline. simpl. unfold labelValue.
  rewrite (JSFacts.split_toLowerCase colon line JSFacts.eqb_lower_colon).
  rewrite list_lookup_fmap.
  destruct (split line colon !! 1%nat) as [v|]; simpl in *; [|reflexivity].
  rewrite JSFacts.trim_toLowerCase.
  apply JSFacts.trim_empty in Hblank. now rewrite Hblank.
Qed.

Lemma extractDocumentType_label_without_value_witness :
  extractDocumentType "The Document Type is a floor plan.
Scale 1:100" = "Architectural Drawing".
Proof.
  apply (extractDocumentType_label_without_value _ "The Document Type is a floor plan.");
    reflexivity.
Defined.

(** X24.  Without a labelled line, the document type is decided by the
    keywords floor plan, elevation and section in that order, first match
    winning, and is Architectural Drawing when none occurs. *)
Theorem extractDocumentType_keywords (text : string) :
  existsb isDocumentTypeLine (split (toLowerCase text) LF) = false ->
  extractDocumentType text =
  Spec.firstMatch
    [("floor plan", "Floor Plan"); ("elevation", "Building Elevation");
     ("section", "Building Section")]
    "Architectural Drawing" text.
Proof.
  intros H. unfold extractDocumentType, Spec.firstMatch.
  rewrite (documentTypeLoop_none _ H). cbn [find fst].
  destruct (includes (toLowerCase text) "floor plan"); [reflexivity|].
  destruct (includes (toLowerCase text) "elevation"); [reflexivity|].
  destruct (includes (toLowerCase text) "section"); reflexivity.
Qed.

Lemma extractDocumentType_keywords_witness :
  extractDocumentType "A section through the stair and the east ELEVATION"
  = "Building Elevation".
Proof.
  apply (extractDocumentType_keywords "A section through the stair and the east ELEVATION").
  reflexivity.
Defined.

Lemma projectTitleLoop_find lines :
  projectTitleLoop lines =
  option_map (fun line => labelValue line "Architectural Project")
    (find (fun line => includes (toLowerCase line) "project" ||
                       includes (toLowerCase line) "title") lines).
Proof.
  induction lines as [|line rest IH]; simpl; [reflexivity|].
  destruct (includes (toLowerCase line) "project" || includes (toLowerCase line) "title");
    [reflexivity|exact IH].
Qed.

(** X25.  The title is the value between the first and the second colon of
    the first line that contains project or title in any letter case,
    trimmed and in the letter case of the text (the document type is
    lower-cased, the title is not); when that line has no such value, or no
    line contains the words, the title is Architectural Project. *)
Theorem extractProjectTitle_value (text : string) :
  extractProjectTitle text =
  match find (fun line => includes (toLowerCase line) "project" ||
                          includes (toLowerCase line) "title") (split text LF) with
  | Some line =>
      match split line colon !! 1%nat with
      | Some value => if blank value then "Architectural Project" else trim value
      | None => "Architectural Project"
      end
  | None => "Architectural Project"
  end.
Proof.
  unfold extractProjectTitle. rewrite projectTitleLoop_find.
  destruct (find _ (split text LF)) as [line|]; [|reflexivity].
  simpl. unfold labelValue.
  destruct (split line colon !! 1%nat) as [v|]; [|reflexivity].
  destruct (blank v) eqn:Hb.
  - apply JSFacts.trim_empty in Hb. now rewrite Hb.
  - destruct (trim v) eqn:Ht; [|reflexivity].
    apply JSFacts.trim_empty in Ht. congruence.
Qed.

Example extractProjectTitle_keeps_case :
  extractProjectTitle "Sheet A-1
PROJECT:  Maple HOUSE : phase 2" = "Maple HOUSE".
Proof. reflexivity. Qed.

(** ** The client and the server together *)

Lemma not_blank_truthy (question : string) :
  blank question = false -> falsy (trim question) = false /\ falsy question = false.
Proof.
  intros H. split.
  - destruct (trim question) eqn:E; [|reflexivity].
    apply JSFacts.trim_empty in E. congruence.
  - destruct question; [discriminate H|reflexivity].
Qed.


(** X27.  Once the upload of an image to a usable gateway is answered, a
    question that is not blank, sent under the key of that answer, adds
    exactly two messages to the chat: the question as typed and the answer
    of the server, which is a success and never the error message of the
    client; the input field is emptied. *)
Theorem analyzed_document_answers (w w' : World) (file : File)
    (analysisCache : gmap string AnalysisResult)
    (st : Client.State) (chosen : Client.BrowserFile) (question : string) :
  Client.uploadedFile st = Some chosen ->
  falsy (filename file) = false ->
  checkOllamaStatus w 0 = true ->
  startsWith (mimetype file) "image/" = true ->
  blank question = false ->
  let response := fst (upload w (Some file) analysisCache) in
  let cache' := snd (upload w (Some file) analysisCache) in
  let st1 := fst (Client.analyzeDocument (fun _ => Some response) st) in
  let st2 :=
    Client.handleQuestionSubmit (fun q key => Some (chat w' q key cache'))
      (Client.setCurrentQuestion question st1) in
  exists answer origin,
    chat w' question (filename file) cache' = ChatSuccess answer origin /\
    Client.chatHistory st2 =
      Client.chatHistory st ++
      [ {| Client.sender := Client.User; Client.content := question |};
        {| Client.sender := Client.Ai; Client.content := answer |} ] /\
    Client.currentQuestion st2 = "".
Proof.
  intros Hfile Hname Hstatus Himage Hq. cbv zeta.
  destruct (not_blank_truthy question Hq) as [Htrim Hne].
  assert (Hup : exists analysis origin,
             upload w (Some file) analysisCache =
             (UploadSuccess (filename file) analysis origin,
              cacheSet (filename file) analysis analysisCache)).
  { unfold upload. rewrite Hstatus, Himage. simpl.
    destruct (analysisText w file); eauto. }
  destruct Hup as (analysis & origin & Hup). rewrite Hup. cbn [fst snd].
  assert (Hchat : exists answer origin',
             chat w' question (filename file)
               (cacheSet (filename file) analysis analysisCache)
             = ChatSuccess answer origin').
  { unfold chat. rewrite Hne, Hname. simpl.
    unfold cacheGet, cacheSet. rewrite lookup_insert_eq.
    destruct (checkOllamaStatus w' 0); simpl; [|eauto].
    destruct (chatText w' question analysis); eauto. }
  destruct Hchat as (answer & origin' & Hchat).
  exists answer, origin'. split; [exact Hchat|].
  unfold Client.analyzeDocument. rewrite Hfile. cbn [fst].
  unfold Client.handleQuestionSubmit, Client.setCurrentQuestion.
  cbn [Client.currentQuestion Client.fileName Client.chatHistory].
  rewrite Htrim, Hname, Hchat. cbn [orb Client.chatHistory Client.currentQuestion].
  split; [|reflexivity]. now rewrite <- app_assoc.
Qed.

Lemma analyzed_document_answers_witness :
  exists answer origin,
    chat Sample.noModels "Which materials are used?" (filename Sample.planFile)
      (snd (upload Sample.steady (Some Sample.planFile) newCache))
    = ChatSuccess answer origin /\
    Client.chatHistory
      (Client.handleQuestionSubmit
         (fun q key =>
            Some (chat Sample.noModels q key
                    (snd (upload Sample.steady (Some Sample.planFile) newCache))))
         (Client.setCurrentQuestion "Which materials are used?"
            (fst (Client.analyzeDocument
                    (fun _ => Some (fst (upload Sample.steady (Some Sample.planFile) newCache)))
                    Client.chosen))))
    = Client.chatHistory Client.chosen ++
      [ {| Client.sender := Client.User; Client.content := "Which materials are used?" |};
        {| Client.sender := Client.Ai; Client.content := answer |} ] /\
    Client.currentQuestion
      (Client.handleQuestionSubmit
         (fun q key =>
            Some (chat Sample.noModels q key
                    (snd (upload Sample.steady (Some Sample.planFile) newCache))))
         (Client.setCurrentQuestion "Which materials are used?"
            (fst (Client.analyzeDocument
                    (fun _ => Some (fst (upload Sample.steady (Some Sample.planFile) newCache)))
                    Client.chosen)))) = "".
Proof.
  apply (analyzed_document_answers Sample.steady Sample.noModels Sample.planFile newCache
           Client.chosen Client.planImage "Which materials are used?"); reflexivity.
Defined.


(** ** The grounding prompt *)

Ltac find_part :=
  repeat first
    [ solve [ apply AnswerFacts.includes_app_l;
              first [ apply IncludesFacts.includes_refl
                    | apply AnswerFacts.includes_join; eassumption ] ]
    | apply IncludesFacts.includes_app_r ].

(** X28.  When the gateway is usable and the generate call of the first
    listed text model answers, the question is answered with that text
    unchanged, and the prompt sent with the call contains the whole
    extracted text of the cached record, its document type, its title,
    its floor count as a template literal prints it, each of its materials
    and key features, and the question. *)
Theorem chat_grounded (w : World) (question key : string)
    (analysisCache : gmap string AnalysisResult) (record : AnalysisResult)
    (models : list string) (name response : string) :
  falsy question = false ->
  falsy key = false ->
  cacheGet key analysisCache = Some record ->
  checkOllamaStatus w 0 = true ->
  ollama_list w 1%nat = Some models ->
  find isTextName models = Some name ->
  ollama_generate w {| model := name; prompt := chatPrompt question record; images := [] |}
    = Some response ->
  chat w question key analysisCache = ChatSuccess response (AiProvider "Local Llama 3.2") /\
  Forall (fun part => includes (chatPrompt question record) part = true)
    ([extractedText record; documentType record; title (projectInfo record);
      Spec.floorsText (floors (structuralElements record)); question]
     ++ materialsList record ++ keyFeatures record).
Proof.
  intros Hq Hk Hget Hstatus Hlist Hfind Hgen. split.
  - unfold chat, chatText. rewrite Hq, Hk, Hget, Hstatus. simpl.
    rewrite Hlist. simpl. now rewrite Hfind, Hgen.
  - unfold chatPrompt.
    change (floorsToString (floors (structuralElements record)))
      with (Spec.floorsText (floors (structuralElements record))).
    apply Forall_app. split; [|apply Forall_app; split].
    + repeat constructor; find_part.
    + apply Forall_forall. intros m Hm. find_part.
    + apply Forall_forall. intros m Hm. find_part.
Qed.

Lemma chat_grounded_witness :
  chat Sample.steady "Who is the architect?" "document-1.png"
    (cacheSet "document-1.png" Sample.planRecord newCache)
  = ChatSuccess "Document type: Section
Scale: 1/4
3 floors, concrete and glass." (AiProvider "Local Llama 3.2").
Proof.
  apply (chat_grounded Sample.steady "Who is the architect?" "document-1.png"
           (cacheSet "document-1.png" Sample.planRecord newCache) Sample.planRecord
           ["llama3.2:3b"; "llava:7b"] "llama3.2:3b"); reflexivity.
Defined.
